(** * batch_assembly.py: manifest reading, batch control and summary report

    A shallow embedding of [scripts/batch_assembly.py] and the properties
    its specification states about it.

    Python strings are [string]s whose characters stand for code points
    below 256.  Python integers are [nat] where the code counts or indexes
    and [Z] where it receives them ([--threads], [--rounds], return codes).
    The console is the list of the texts given to [print], the file system
    a finite map from paths (taken literally, POSIX separator) to nodes.

    Three collaborators are libraries or programs outside the script and
    are parameters of the development: the [csv] reader, the external
    assembly tool behind [subprocess.run], and the wall clock.  Creating
    the output directory and writing the report are taken to succeed: the
    script does not handle their failure. *)

From Stdlib Require Import ZArith Ascii String DecimalString.
From stdpp Require Import base option list strings gmap.

(** ** Strings as Python uses them *)

Definition nl : string := String (ascii_of_nat 10) EmptyString.

(** [s * n] *)
Fixpoint str_mul (s : string) (n : nat) : string :=
  match n with
  | O => EmptyString
  | S n' => s +:+ str_mul s n'
  end.

(** [str(n)] for a non-negative int and for any int *)
Definition str_nat (n : nat) : string := NilEmpty.string_of_uint (Nat.to_uint n).
Definition str_Z (z : Z) : string := NilZero.string_of_int (Z.to_int z).

(** [sep.join(l)] *)
Definition join (sep : string) (l : list string) : string := String.concat sep l.

(** [c.isspace()] on code points below 256 *)
Definition is_space (c : ascii) : bool :=
  let n := nat_of_ascii c in
  (Nat.leb 9 n && Nat.leb n 13) || (Nat.leb 28 n && Nat.leb n 32)
  || Nat.eqb n 133 || Nat.eqb n 160.

Fixpoint lstrip (s : string) : string :=
  match s with
  | EmptyString => EmptyString
  | String c r => if is_space c then lstrip r else s
  end.

Fixpoint rstrip (s : string) : string :=
  match s with
  | EmptyString => EmptyString
  | String c r =>
      match rstrip r with
      | EmptyString => if is_space c then EmptyString else String c EmptyString
      | r' => String c r'
      end
  end.

(** [s.strip()] *)
Definition strip (s : string) : string := rstrip (lstrip s).

(** [f"{s:<w}"]: [s] followed by the spaces that bring it to width [w] *)
Definition ljust (w : nat) (s : string) : string :=
  s +:+ str_mul " " (w - String.length s).

Definition startswith (p s : string) : bool := String.prefix p s.

Definition endswith (c : ascii) (s : string) : bool :=
  match String.get (String.length s - 1) s with
  | Some d => bool_decide (c = d)
  | None => false
  end.

(** [os.path.join(a, b)] of posixpath *)
Definition os_path_join (a b : string) : string :=
  if startswith "/" b then b
  else if bool_decide (a = EmptyString) || endswith "/" a then a +:+ b
  else a +:+ "/" +:+ b.

(** ** Data *)

(** A sample is the tuple [(sample_name, read1, read2)]. *)
Definition Sample : Type := string * string * string.

Definition s_name (s : Sample) : string := s.1.1.
Definition s_read1 (s : Sample) : string := s.1.2.
Definition s_read2 (s : Sample) : string := s.2.

(** The dict [{'sample_name': ..., 'success': ...}] *)
Record RunResult := mkResult { sample_name : string; success : bool }.

(** The namespace [parse_arguments] returns *)
Record Args := mkArgs {
  samples : string;
  threads : Z;
  output_dir : string;
  kmer : string;
  rounds : Z;
  organelle_type : string;
  continue_on_error : bool
}.

(** ** The world the script runs in *)

Inductive node :=
| File (content : string)
| Dir.

Record World := mkWorld {
  w_out : list string;          (* one entry per [print] call *)
  w_fs : gmap string node;
  w_clock : nat;                (* [datetime.now()] calls so far *)
  w_runs : list (list string)   (* commands given to [subprocess.run] *)
}.

(** What became of one launch of the external tool *)
Inductive outcome :=
| Exited (returncode : Z) (out err : string)
| Fault (description : string).

Inductive exn :=
| FileNotFoundError (filename : string)
| IsADirectoryError (filename : string)
| CalledProcessError (returncode : Z) (cmd : list string) (stderr : string)
| OtherError (description : string).

Inductive result (A : Type) :=
| Ret (a : A)
| Raise (e : exn)
| SysExit (code : Z).
Arguments Ret {A} a.
Arguments Raise {A} e.
Arguments SysExit {A} code.

Definition M (A : Type) : Type := World → result A * World.

#[global] Instance M_ret : MRet M := λ A a w, (Ret a, w).

#[global] Instance M_bind : MBind M := λ A B f m w,
  match m w with
  | (Ret a, w') => f a w'
  | (Raise e, w') => (Raise e, w')
  | (SysExit c, w') => (SysExit c, w')
  end.

Definition raise {A} (e : exn) : M A := λ w, (Raise e, w).

(** [sys.exit(code)] *)
Definition sys_exit {A} (code : Z) : M A := λ w, (SysExit code, w).

(** [try: body except ... as e: handler e]; [sys.exit] is not an
    [Exception] and passes through. *)
Definition try_except {A} (body : M A) (handler : exn → M A) : M A := λ w,
  match body w with
  | (Raise e, w') => handler e w'
  | r => r
  end.

(** The status the operating system sees when the interpreter stops *)
Definition exit_status {A} (r : result A) : Z :=
  match r with
  | Ret _ => 0
  | SysExit c => c
  | Raise _ => 1
  end.

Definition put_out (s : string) (w : World) : World :=
  mkWorld (w_out w ++ [s]) (w_fs w) (w_clock w) (w_runs w).

Definition put_outs (l : list string) (w : World) : World :=
  mkWorld (w_out w ++ l) (w_fs w) (w_clock w) (w_runs w).

Definition put_fs (fs : gmap string node) (w : World) : World :=
  mkWorld (w_out w) fs (w_clock w) (w_runs w).

Definition print (s : string) : M unit := λ w, (Ret tt, put_out s w).

(** Whether something, file or directory, is at path [p] *)
Definition present (fs : gmap string node) (p : string) : bool :=
  bool_decide (is_Some (fs !! p)).

(** [os.path.exists(p)] *)
Definition os_path_exists (p : string) : M bool := λ w,
  (Ret (present (w_fs w) p), w).

(** [os.makedirs(p, exist_ok=True)]: a path that is there already is
    left as it is.  Paths being literal keys, the directory is one key:
    no key is made for a parent. *)
Definition os_makedirs (p : string) : M unit := λ w,
  match w_fs w !! p with
  | None => (Ret tt, put_fs (<[p := Dir]> (w_fs w)) w)
  | Some _ => (Ret tt, w)
  end.

(** [open(p, 'r')] and reading the text *)
Definition read_text (p : string) : M string := λ w,
  match w_fs w !! p with
  | None => (Raise (FileNotFoundError p), w)
  | Some Dir => (Raise (IsADirectoryError p), w)
  | Some (File c) => (Ret c, w)
  end.

(** [with open(p, 'w') as f:] and the [f.write] calls that give [text]:
    what was at [p] is replaced. *)
Definition write_text (p text : string) : M unit := λ w,
  (Ret tt, put_fs (<[p := File text]> (w_fs w)) w).

(** [sum(l)] *)
Definition py_sum (l : list Z) : Z := fold_left Z.add l 0%Z.

(** The counts both [generate_summary] and [main] compute:
    [len(results)], [sum(1 for r in results if r['success'])] and their
    difference. *)
Definition n_total (results : list RunResult) : Z := Z.of_nat (length results).

Definition n_successful (results : list RunResult) : Z :=
  py_sum ((λ _, 1%Z) <$> List.filter success results).

Definition n_failed (results : list RunResult) : Z :=
  (n_total results - n_successful results)%Z.

(** [f"{result['sample_name']:<30} {status}\n"] *)
Definition status_word (r : RunResult) : string :=
  if success r then "SUCCESS" else "FAILED".

Definition detail_line (r : RunResult) : string :=
  ljust 30 (sample_name r) +:+ " " +:+ status_word r +:+ nl.

(** Everything [generate_summary] writes before the per-sample lines;
    [stamp] is the formatted [datetime.now()]. *)
Definition summary_head (stamp : string) (results : list RunResult) : string :=
  "GetOrganelle Batch Assembly Summary" +:+ nl
  +:+ str_mul "=" 60 +:+ nl
  +:+ "Generated: " +:+ stamp +:+ nl +:+ nl
  +:+ "Total samples: " +:+ str_Z (n_total results) +:+ nl
  +:+ "Successful: " +:+ str_Z (n_successful results) +:+ nl
  +:+ "Failed: " +:+ str_Z (n_failed results) +:+ nl +:+ nl
  +:+ "Sample Details:" +:+ nl
  +:+ str_mul "-" 60 +:+ nl.

Definition summary_text (stamp : string) (results : list RunResult) : string :=
  summary_head stamp results +:+ join EmptyString (detail_line <$> results).

(** The argument list [cmd] of [run_getorganelle] *)
Definition getorganelle_cmd (read1 read2 sample_output : string) (args : Args)
  : list string :=
  [ "get_organelle_from_reads.py";
    "-1"; read1;
    "-2"; read2;
    "-o"; sample_output;
    "-R"; str_Z (rounds args);
    "-k"; kmer args;
    "-F"; organelle_type args;
    "-t"; str_Z (threads args) ].

Definition sample_cmd (args : Args) (s : Sample) : list string :=
  getorganelle_cmd (s_read1 s) (s_read2 s)
    (os_path_join (output_dir args) (s_name s +:+ "_mt")) args.

Section Script.

(** [csv.reader] over the text of the manifest: the rows it yields *)
Variable csv_reader : string → list (list string).

(** The external tool: what the [n]-th launch, of command [cmd] on file
    system [fs], comes to, and the file system it leaves *)
Variable tool : nat → list string → gmap string node → outcome * gmap string node.

(** [datetime.now().strftime('%Y-%m-%d %H:%M:%S')] at the [n]-th call *)
Variable strftime_now : nat → string.

(** [repr(s)] *)
Variable py_repr : string → string.

(** [str(e)] *)
Definition str_exn (e : exn) : string :=
  match e with
  | FileNotFoundError f => "[Errno 2] No such file or directory: " +:+ py_repr f
  | IsADirectoryError f => "[Errno 21] Is a directory: " +:+ py_repr f
  | CalledProcessError rc cmd _ =>
      "Command " +:+ py_repr (join " " cmd)
      +:+ " returned non-zero exit status " +:+ str_Z rc +:+ "."
  | OtherError d => d
  end.

Definition datetime_now : M string := λ w,
  (Ret (strftime_now (w_clock w)),
   mkWorld (w_out w) (w_fs w) (S (w_clock w)) (w_runs w)).

(** [subprocess.run(cmd, check=True, stdout=PIPE, stderr=PIPE, text=True)];
    the value is the captured [(stdout, stderr)]. *)
Definition subprocess_run (cmd : list string) : M (string * string) := λ w,
  let '(o, fs') := tool (length (w_runs w)) cmd (w_fs w) in
  let w' := mkWorld (w_out w) fs' (w_clock w) (w_runs w ++ [cmd]) in
  match o with
  | Exited rc out err =>
      if bool_decide (rc = 0%Z) then (Ret (out, err), w')
      else (Raise (CalledProcessError rc cmd err), w')
  | Fault d => (Raise (OtherError d), w')
  end.

(** *** read_samples *)

(** The body of [for line_num, row in enumerate(reader, 1)], with the
    list [samples] built so far *)
Fixpoint read_rows (line_num : nat) (rows : list (list string))
    (acc : list Sample) : M (list Sample) :=
  match rows with
  | [] => mret acc
  | row :: rest =>
      if negb (length row =? 3) then
        print ("Warning: Skipping line " +:+ str_nat line_num
               +:+ " - expected 3 columns, got " +:+ str_nat (length row));;
        read_rows (S line_num) rest acc
      else
        match strip <$> row with
        | [sample_name; read1; read2] =>
            e1 ← os_path_exists read1;
            if negb e1 then
              print ("Warning: Read1 file not found for " +:+ sample_name
                     +:+ ": " +:+ read1);;
              read_rows (S line_num) rest acc
            else
              e2 ← os_path_exists read2;
              if negb e2 then
                print ("Warning: Read2 file not found for " +:+ sample_name
                       +:+ ": " +:+ read2);;
                read_rows (S line_num) rest acc
              else
                read_rows (S line_num) rest (acc ++ [(sample_name, read1, read2)])
        | _ => raise (OtherError "ValueError")
        end
  end.

Definition read_samples (sample_file : string) : M (list Sample) :=
  try_except
    (text ← read_text sample_file;
     read_rows 1 (csv_reader text) [])
    (λ e,
       match e with
       | FileNotFoundError _ =>
           print ("Error: Sample file not found: " +:+ sample_file);;
           sys_exit 1
       | _ =>
           print ("Error reading sample file: " +:+ str_exn e);;
           sys_exit 1
       end).

(** *** run_getorganelle *)

Definition run_getorganelle (sample_name read1 read2 output_dir : string)
    (args : Args) : M bool :=
  let sample_output := os_path_join output_dir (sample_name +:+ "_mt") in
  let cmd := getorganelle_cmd read1 read2 sample_output args in
  print (nl +:+ str_mul "=" 60);;
  print ("Processing: " +:+ sample_name);;
  stamp ← datetime_now;
  print ("Started: " +:+ stamp);;
  print ("Command: " +:+ join " " cmd);;
  print (str_mul "=" 60 +:+ nl);;
  try_except
    (subprocess_run cmd;;
     print (nl +:+ "[SUCCESS] " +:+ sample_name +:+ " completed successfully");;
     mret true)
    (λ e,
       match e with
       | CalledProcessError _ _ stderr =>
           print (nl +:+ "[FAILED] " +:+ sample_name +:+ " failed with error:");;
           print stderr;;
           mret false
       | _ =>
           print (nl +:+ "[ERROR] Unexpected error for " +:+ sample_name +:+ ":");;
           print (str_exn e);;
           mret false
       end).

(** *** generate_summary *)

Definition generate_summary (results : list RunResult) (output_dir : string)
    : M string :=
  let summary_file := os_path_join output_dir "batch_assembly_summary.txt" in
  stamp ← datetime_now;
  write_text summary_file (summary_text stamp results);;
  print (nl +:+ "Summary report saved to: " +:+ summary_file);;
  mret summary_file.

(** *** main *)

(** The loop [for i, (sample_name, read1, read2) in enumerate(samples, 1)]
    over the samples still to do; [total] is [len(samples)]. *)
Fixpoint main_loop (args : Args) (total i : nat) (todo : list Sample)
    (results : list RunResult) : M (list RunResult) :=
  match todo with
  | [] => mret results
  | (sample_name, read1, read2) :: rest =>
      print (nl +:+ nl +:+ "Processing sample " +:+ str_nat i +:+ "/"
             +:+ str_nat total +:+ ": " +:+ sample_name);;
      ok ← run_getorganelle sample_name read1 read2 (output_dir args) args;
      let results := results ++ [mkResult sample_name ok] in
      if negb ok && negb (continue_on_error args) then
        print (nl +:+ "Stopping batch processing due to failure "
               +:+ "(use --continue-on-error to override)");;
        mret results
      else
        main_loop args total (S i) rest results
  end.

(** [for result in results: if not result['success']: print(...)] *)
Fixpoint print_failed (results : list RunResult) : M unit :=
  match results with
  | [] => mret tt
  | r :: rest =>
      (if negb (success r) then print ("  - " +:+ sample_name r) else mret tt);;
      print_failed rest
  end.

(** From [# Generate summary] to [sys.exit] *)
Definition main_report (args : Args) (results : list RunResult) : M unit :=
  print (nl +:+ str_mul "=" 60);;
  print "Batch Processing Complete";;
  print (str_mul "=" 60);;
  summary_file ← generate_summary results (output_dir args);
  let total := n_total results in
  let successful := n_successful results in
  let failed := n_failed results in
  print (nl +:+ "Results:");;
  print ("  Total: " +:+ str_Z total);;
  print ("  Successful: " +:+ str_Z successful);;
  print ("  Failed: " +:+ str_Z failed);;
  (if (0 <? failed)%Z then
     print (nl +:+ "Failed samples:");;
     print_failed results
   else mret tt);;
  sys_exit (if (failed =? 0)%Z then 0%Z else 1%Z).

(** [main] from [# Create output directory] on, for the namespace [args]
    that its first statement, [args = parse_arguments()], obtained *)
Definition main (args : Args) : M unit :=
  os_makedirs (output_dir args);;
  print ("Reading sample information from: " +:+ samples args);;
  todo ← read_samples (samples args);
  (if bool_decide (todo = []) then
     print "Error: No valid samples found in the input file";;
     sys_exit 1
   else mret tt);;
  print (nl +:+ "Found " +:+ str_nat (length todo) +:+ " samples to process");;
  print "Parameters:";;
  print ("  - Threads per sample: " +:+ str_Z (threads args));;
  print ("  - K-mer values: " +:+ kmer args);;
  print ("  - Extension rounds: " +:+ str_Z (rounds args));;
  print ("  - Organelle type: " +:+ organelle_type args);;
  print ("  - Output directory: " +:+ output_dir args);;
  results ← main_loop args (length todo) 1 todo [];
  main_report args results.

(** [parse_arguments()] on the command line [argv]: the namespace, or the
    exit of [argparse] itself (usage and status 2 for a command line it
    refuses, help and status 0 for [--help]) *)
Variable parse_arguments : list string → M Args.

(** [main()] as the script calls it, from its first statement *)
Definition main_argv (argv : list string) : M unit :=
  args ← parse_arguments argv;
  main args.

End Script.

(** ** What one manifest row comes to

    Pure readings of the body of the loop of [read_samples], used to
    state what the loop does as a whole. *)

Definition row_fields (row : list string) : option Sample :=
  match row with
  | [a; b; c] => Some (strip a, strip b, strip c)
  | _ => None
  end.

Definition accept (fs : gmap string node) (row : list string) : option Sample :=
  s ← row_fields row;
  if present fs (s_read1 s) && present fs (s_read2 s) then Some s else None.

Definition row_warning (fs : gmap string node) (line_num : nat)
    (row : list string) : list string :=
  match row_fields row with
  | None =>
      ["Warning: Skipping line " +:+ str_nat line_num
       +:+ " - expected 3 columns, got " +:+ str_nat (length row)]
  | Some s =>
      if negb (present fs (s_read1 s)) then
        ["Warning: Read1 file not found for " +:+ s_name s +:+ ": " +:+ s_read1 s]
      else if negb (present fs (s_read2 s)) then
        ["Warning: Read2 file not found for " +:+ s_name s +:+ ": " +:+ s_read2 s]
      else []
  end.

Fixpoint warnings (fs : gmap string node) (line_num : nat)
    (rows : list (list string)) : list string :=
  match rows with
  | [] => []
  | row :: rest => row_warning fs line_num row ++ warnings fs (S line_num) rest
  end.

(** ** What one launch prints *)

Definition run_banner (sample_name stamp : string) (cmd : list string)
  : list string :=
  [ nl +:+ str_mul "=" 60;
    "Processing: " +:+ sample_name;
    "Started: " +:+ stamp;
    "Command: " +:+ join " " cmd;
    str_mul "=" 60 +:+ nl ].

Definition run_notice (sample_name : string) (o : outcome) : list string :=
  match o with
  | Exited rc _ err =>
      if bool_decide (rc = 0%Z)
      then [nl +:+ "[SUCCESS] " +:+ sample_name +:+ " completed successfully"]
      else [nl +:+ "[FAILED] " +:+ sample_name +:+ " failed with error:"; err]
  | Fault d =>
      [nl +:+ "[ERROR] Unexpected error for " +:+ sample_name +:+ ":"; d]
  end.

Definition outcome_ok (o : outcome) : bool :=
  match o with
  | Exited rc _ _ => bool_decide (rc = 0%Z)
  | Fault _ => false
  end.

(** ** What [main] prints around the loop *)

Definition reading_line (args : Args) : string :=
  "Reading sample information from: " +:+ samples args.

(** The world in which [main] calls [read_samples]: the output directory
    made, the first line printed *)
Definition before_reading (args : Args) (w : World) : World :=
  put_out (reading_line args) (os_makedirs (output_dir args) w).2.

(** The lines between reading the manifest and the loop *)
Definition announce (args : Args) (todo : list Sample) : list string :=
  [ nl +:+ "Found " +:+ str_nat (length todo) +:+ " samples to process";
    "Parameters:";
    "  - Threads per sample: " +:+ str_Z (threads args);
    "  - K-mer values: " +:+ kmer args;
    "  - Extension rounds: " +:+ str_Z (rounds args);
    "  - Organelle type: " +:+ organelle_type args;
    "  - Output directory: " +:+ output_dir args ].

(** The progress line of the [i]-th of [total] samples *)
Definition progress_line (i total : nat) (s : Sample) : string :=
  nl +:+ nl +:+ "Processing sample " +:+ str_nat i +:+ "/"
  +:+ str_nat total +:+ ": " +:+ s_name s.

Definition stop_line : string :=
  nl +:+ "Stopping batch processing due to failure "
  +:+ "(use --continue-on-error to override)".

(** The result recorded for a sample that succeeded *)
Definition passed (s : Sample) : RunResult := mkResult (s_name s) true.

(** The path of the report *)
Definition summary_path (out : string) : string :=
  os_path_join out "batch_assembly_summary.txt".

(** A string with no white space at either end *)
Definition bare (f : string) : Prop :=
  (∀ ch, String.get 0 f = Some ch → is_space ch = false)
  ∧ (∀ ch, String.get (String.length f - 1) f = Some ch → is_space ch = false).

(** What a row comes to is a record or a warning *)
Definition verdict_record (v : Sample + string) : option Sample :=
  match v with inl s => Some s | inr _ => None end.

Definition verdict_warning (v : Sample + string) : option string :=
  match v with inl _ => None | inr msg => Some msg end.

(** The name padded on the left instead, which is how the specification
    words the sample column of the report; compared with [ljust] below. *)
Definition left_padded (w : nat) (s : string) : string :=
  str_mul " " (w - String.length s) +:+ s.

(** ** A small environment to run the script in *)

Module Demo.

Fixpoint split_on (c : ascii) (s : string) : list string :=
  match s with
  | EmptyString => [EmptyString]
  | String d r =>
      if bool_decide (c = d) then EmptyString :: split_on c r
      else match split_on c r with
           | [] => [String d EmptyString]
           | f :: fs => String d f :: fs
           end
  end.

Definition lines (text : string) : list string :=
  match reverse (split_on (ascii_of_nat 10) text) with
  | EmptyString :: r => reverse r
  | r => reverse r
  end.

(** The rows of a text without quotes: one per line, split at commas,
    no field at all for an empty line *)
Definition csv_reader (text : string) : list (list string) :=
  (λ l, if bool_decide (l = EmptyString) then [] else split_on "," l)
    <$> lines text.

(** A tool that fails on the read file [bad_1.fq], cannot be launched
    on [none_1.fq], and succeeds otherwise; it touches no file. *)
Definition tool (n : nat) (cmd : list string) (fs : gmap string node)
  : outcome * gmap string node :=
  if bool_decide (cmd !! 2 = Some "bad_1.fq")
  then (Exited 1 "log" "no seed reads", fs)
  else if bool_decide (cmd !! 2 = Some "none_1.fq")
  then (Fault "[Errno 2] No such file or directory: 'get_organelle_from_reads.py'", fs)
  else (Exited 0 "log" EmptyString, fs).

Definition strftime_now (n : nat) : string :=
  "2024-05-01 10:00:0" +:+ str_nat n.

Definition py_repr (s : string) : string := "'" +:+ s +:+ "'".

Definition reads : list (string * node) :=
  [ ("a_1.fq", File "@r1"); ("a_2.fq", File "@r2");
    ("bad_1.fq", File "@r3"); ("bad_2.fq", File "@r4");
    ("c_1.fq", File "@r5"); ("c_2.fq", File "@r6") ].

Definition world (manifests : list (string * node)) : World :=
  mkWorld [] (list_to_map (manifests ++ reads)) 0 [].

Definition args (manifest : string) (keep_going : bool) : Args :=
  mkArgs manifest 4 "output" "21,45,65,85,105" 15 "animal_mt" keep_going.

(** Two samples, both with their read files *)
Definition manifest_ok : string :=
  "s1,a_1.fq,a_2.fq" +:+ nl +:+ " s2 , c_1.fq,c_2.fq " +:+ nl.

(** Three samples; the tool fails on the second *)
Definition manifest_fail : string :=
  "s1,a_1.fq,a_2.fq" +:+ nl +:+ "s2,bad_1.fq,bad_2.fq" +:+ nl
  +:+ "s3,c_1.fq,c_2.fq" +:+ nl.

(** A second line of two fields; the same without it; the same with a
    line of three fields and present read files in its place *)
Definition manifest_short : string :=
  "s1,a_1.fq,a_2.fq" +:+ nl +:+ "s3,x.fq" +:+ nl +:+ "s2,c_1.fq,c_2.fq" +:+ nl.

Definition manifest_without : string :=
  "s1,a_1.fq,a_2.fq" +:+ nl +:+ "s2,c_1.fq,c_2.fq" +:+ nl.

Definition manifest_mended : string :=
  "s1,a_1.fq,a_2.fq" +:+ nl +:+ "s3,bad_1.fq,bad_2.fq" +:+ nl
  +:+ "s2,c_1.fq,c_2.fq" +:+ nl.

(** One sample, neither read file present *)
Definition manifest_missing : string := "s9,x_1.fq,x_2.fq" +:+ nl.

(** A blank name and a name used twice *)
Definition manifest_names : string :=
  " ,a_1.fq,a_2.fq" +:+ nl +:+ "s1,a_1.fq,a_2.fq" +:+ nl
  +:+ "s1,c_1.fq,c_2.fq" +:+ nl.

(** The world with [text] as [samples.txt] *)
Definition start (text : string) : World := world [("samples.txt", File text)].

(** The world with the three manifests of the second line *)
Definition start3 : World :=
  world [ ("short.txt", File manifest_short);
          ("without.txt", File manifest_without);
          ("mended.txt", File manifest_mended) ].

(** A tool that succeeds on every launch and touches no file *)
Definition tool_ok (n : nat) (cmd : list string) (fs : gmap string node)
  : outcome * gmap string node :=
  (Exited 0 "log" EmptyString, fs).


Definition start_dir : World := world [("samples.txt", Dir)].

(** Five samples: the second lacks read2 only, the third read1 only, the
    fourth both *)
Definition manifest_gaps : string :=
  "s1,a_1.fq,a_2.fq" +:+ nl +:+ "s5,a_1.fq,x_2.fq" +:+ nl
  +:+ "s6,x_1.fq,a_2.fq" +:+ nl +:+ "s9,x_1.fq,x_2.fq" +:+ nl
  +:+ "s2,c_1.fq,c_2.fq" +:+ nl.


(** A stand-in for the parser on three shapes of command line: the
    manifest alone, the manifest with the flag, and [--help] *)
Definition parse_arguments (argv : list string) : M Args :=
  match argv with
  | ["--samples"; f] => mret (args f false)
  | ["--samples"; f; "--continue-on-error"] => mret (args f true)
  | ["--help"] =>
      print "usage: batch_assembly.py [-h] --samples SAMPLES";; sys_exit 0
  | _ => print "usage: batch_assembly.py [-h] --samples SAMPLES";; sys_exit 2
  end.

Definition read_samples := read_samples csv_reader py_repr.
Definition run_getorganelle := run_getorganelle tool strftime_now py_repr.
Definition generate_summary := generate_summary strftime_now.
Definition main_loop := main_loop tool strftime_now py_repr.
Definition main_report := main_report strftime_now.
Definition main := main csv_reader tool strftime_now py_repr.
Definition main_argv :=
  main_argv csv_reader tool strftime_now py_repr parse_arguments.

End Demo.

(** ** Running the monad *)

Lemma bind_run {A B} (m : M A) (f : A → M B) w :
  (m ≫= f) w =
  match m w with
  | (Ret a, w') => f a w'
  | (Raise e, w') => (Raise e, w')
  | (SysExit c, w') => (SysExit c, w')
  end.
Proof. reflexivity. Qed.

Lemma print_then {B} s (k : M B) w : (print s;; k) w = k (put_out s w).
Proof. reflexivity. Qed.

Lemma put_outs_nil w : put_outs [] w = w.
Proof. destruct w; unfold put_outs; simpl. by rewrite app_nil_r. Qed.

Lemma put_outs_one s w : put_outs [s] w = put_out s w.
Proof. reflexivity. Qed.

Lemma put_outs_app l1 l2 w : put_outs l2 (put_outs l1 w) = put_outs (l1 ++ l2) w.
Proof. unfold put_outs; simpl. by rewrite <- app_assoc. Qed.

Lemma put_outs_out s l w : put_outs l (put_out s w) = put_outs (s :: l) w.
Proof. unfold put_outs, put_out; simpl. by rewrite <- app_assoc. Qed.

Lemma present_is_Some fs p : present fs p = true ↔ is_Some (fs !! p).
Proof. unfold present. apply bool_decide_eq_true. Qed.

(** ** The manifest reader *)

Lemma row_fields_length row : is_Some (row_fields row) ↔ length row = 3.
Proof.
  destruct row as [|a [|b [|c [|d r]]]]; simpl; split; intros H;
    try done; try (by destruct H); eauto.
Qed.

Lemma row_fields_None row : length row ≠ 3 → row_fields row = None.
Proof.
  intros H. destruct (row_fields row) eqn:E; [|done].
  exfalso. apply H, row_fields_length. eauto.
Qed.

Lemma accept_Some fs row s :
  accept fs row = Some s ↔
  row_fields row = Some s ∧ present fs (s_read1 s) = true
  ∧ present fs (s_read2 s) = true.
Proof.
  unfold accept. destruct (row_fields row) as [s'|]; simpl.
  - destruct (present fs (s_read1 s')) eqn:E1, (present fs (s_read2 s')) eqn:E2;
      simpl; split; try (intros [= <-]; done); try (intros ([= <-] & ? & ?); congruence).
  - split; [done | by intros [? _]].
Qed.

(** One turn of the loop of [read_samples]: the row's record, if it is
    accepted, joins the list, its warning, if it has one, is printed. *)
Lemma read_rows_step n row rest acc w :
  read_rows n (row :: rest) acc w =
  read_rows (S n) rest (acc ++ option_list (accept (w_fs w) row))
    (put_outs (row_warning (w_fs w) n row) w).
Proof.
  destruct row as [|a [|b [|c [|d r]]]];
    try (by rewrite app_nil_r).
  unfold accept, row_warning.
  cbn [read_rows length Nat.eqb negb fmap list_fmap row_fields mbind
       option_bind s_read1 s_read2 s_name fst snd].
  rewrite bind_run. unfold os_path_exists at 1.
  destruct (present (w_fs w) (strip b)); cbn [negb andb].
  - rewrite bind_run. unfold os_path_exists at 1.
    destruct (present (w_fs w) (strip c)); cbn [negb option_list].
    + by rewrite put_outs_nil.
    + by rewrite app_nil_r.
  - by rewrite app_nil_r.
Qed.

(** The loop as a whole: it never raises, returns the accepted rows'
    records in order and only prints. *)
Lemma read_rows_spec rows : ∀ n acc w,
  read_rows n rows acc w =
  (Ret (acc ++ omap (accept (w_fs w)) rows),
   put_outs (warnings (w_fs w) n rows) w).
Proof.
  induction rows as [|row rest IH]; intros n acc w.
  - simpl. by rewrite app_nil_r, put_outs_nil.
  - rewrite read_rows_step, IH. cbn [put_outs w_fs warnings omap list_omap].
    rewrite put_outs_app, <- app_assoc. f_equal. f_equal. f_equal.
    by destruct (accept (w_fs w) row).
Qed.

Section Reader.

Variable csv_reader : string → list (list string).
Variable py_repr : string → string.

Lemma read_samples_open sample_file text w :
  w_fs w !! sample_file = Some (File text) →
  read_samples csv_reader py_repr sample_file w =
  (Ret (omap (accept (w_fs w)) (csv_reader text)),
   put_outs (warnings (w_fs w) 1 (csv_reader text)) w).
Proof.
  intros Hf. unfold read_samples, try_except.
  rewrite bind_run. unfold read_text. rewrite Hf.
  by rewrite read_rows_spec.
Qed.

(** Whatever the manifest, [read_samples] returns a list or exits with
    status 1, and changes no file. *)
Lemma read_samples_total sample_file w :
  ∃ r w', read_samples csv_reader py_repr sample_file w = (r, w')
    ∧ w_fs w' = w_fs w ∧ w_runs w' = w_runs w ∧ w_clock w' = w_clock w
    ∧ (r = SysExit 1%Z
       ∨ ∃ text, w_fs w !! sample_file = Some (File text)
           ∧ r = Ret (omap (accept (w_fs w)) (csv_reader text))).
Proof.
  destruct (w_fs w !! sample_file) as [[text|]|] eqn:Hf.
  - rewrite (read_samples_open _ text) by done.
    eexists _, _. split; [done|]. repeat split; eauto.
  - unfold read_samples, try_except. rewrite bind_run. unfold read_text.
    rewrite Hf. rewrite print_then. eexists _, _. split; [done|].
    repeat split; eauto.
  - unfold read_samples, try_except. rewrite bind_run. unfold read_text.
    rewrite Hf. rewrite print_then. eexists _, _. split; [done|].
    repeat split; eauto.
Qed.

End Reader.

(** Rows that all have three fields and both read files are all accepted,
    one record per row, and nothing is printed for them. *)
Lemma omap_accept_all fs (rows : list (list string)) :
  (∀ row, row ∈ rows →
     ∃ a b c, row = [a; b; c]
       ∧ present fs (strip b) = true ∧ present fs (strip c) = true) →
  (∀ n, warnings fs n rows = [])
  ∧ length (omap (accept fs) rows) = length rows
  ∧ ∀ i row, rows !! i = Some row →
      ∃ a b c, row = [a; b; c]
        ∧ omap (accept fs) rows !! i = Some (strip a, strip b, strip c).
Proof.
  induction rows as [|row rest IH]; intros Hall.
  - split; [done|]. split; [done|].
    intros i row Hi. by rewrite lookup_nil in Hi.
  - destruct (Hall row) as (a & b & c & -> & Hb & Hc); [by left|].
    destruct IH as (Hw & Hlen & Hnth).
    { intros r Hr. apply Hall. by right. }
    assert (accept fs [a; b; c] = Some (strip a, strip b, strip c)) as Hacc.
    { apply accept_Some. by repeat split. }
    repeat split.
    + intros n. cbn [warnings]. rewrite Hw. unfold row_warning.
      cbn [row_fields s_read1 s_read2 fst snd]. by rewrite Hb, Hc.
    + cbn [omap list_omap]. rewrite Hacc. simpl. by rewrite Hlen.
    + intros [|i] row Hi; cbn [omap list_omap]; rewrite Hacc.
      * injection Hi as <-. by eexists _, _, _.
      * simpl in Hi. destruct (Hnth i row Hi) as (a' & b' & c' & -> & Hr).
        by eexists _, _, _.
Qed.

(** A record that is returned had both its read files present. *)
Lemma omap_accept_present fs (rows : list (list string)) s :
  s ∈ omap (accept fs) rows →
  present fs (s_read1 s) = true ∧ present fs (s_read2 s) = true
  ∧ ∃ a b c, [a; b; c] ∈ rows ∧ s = (strip a, strip b, strip c).
Proof.
  intros (row & Hrow & Hacc)%list_elem_of_omap.
  apply accept_Some in Hacc as (Hf & H1 & H2). repeat split; [done..|].
  destruct row as [|a [|b [|c [|d r]]]]; try done.
  injection Hf as <-. by eexists _, _, _.
Qed.

(** A row without three fields leaves the records as they are without it. *)
Lemma omap_accept_drop fs (pre : list (list string)) row post :
  length row ≠ 3 →
  omap (accept fs) (pre ++ row :: post) = omap (accept fs) (pre ++ post).
Proof.
  intros Hlen. rewrite !omap_app. cbn [omap list_omap].
  unfold accept at 2. by rewrite (row_fields_None row Hlen).
Qed.

Lemma warnings_app fs pre post n :
  warnings fs n (pre ++ post) =
  warnings fs n pre ++ warnings fs (n + length pre) post.
Proof.
  revert n. induction pre as [|row pre IH]; intros n; simpl.
  - by rewrite Nat.add_0_r.
  - rewrite IH, <- app_assoc. by rewrite Nat.add_succ_r.
Qed.

(** Distinct names in the manifest give distinct names in the records. *)
Lemma omap_accept_NoDup fs (rows : list (list string)) :
  (∀ i j a b c a' b' c',
     rows !! i = Some [a; b; c] → rows !! j = Some [a'; b'; c'] →
     strip a = strip a' → i = j) →
  NoDup (s_name <$> omap (accept fs) rows).
Proof.
  induction rows as [|row rest IH]; intros Hd; [constructor|].
  assert (NoDup (s_name <$> omap (accept fs) rest)) as Hrest.
  { apply IH. intros i j a b c a' b' c' Hi Hj Heq.
    by injection (Hd (S i) (S j) a b c a' b' c' Hi Hj Heq). }
  cbn [omap list_omap]. destruct (accept fs row) as [s|] eqn:Hacc; [|done].
  rewrite fmap_cons. constructor; [|done].
  intros (s' & Hn & Hin)%list_elem_of_fmap.
  apply omap_accept_present in Hin as (_ & _ & a' & b' & c' & Hin & ->).
  apply list_elem_of_lookup in Hin as [j Hj].
  apply accept_Some in Hacc as (Hf & _ & _).
  destruct row as [|a [|b [|c [|d r]]]]; try done. injection Hf as <-.
  cbn [s_name fst] in Hn.
  by specialize (Hd 0 (S j) a b c a' b' c' eq_refl Hj Hn).
Qed.

Section ReaderClaims.

Variable csv_reader : string → list (list string).
Variable py_repr : string → string.

(** C3.  When every row of the manifest has exactly three fields and the
    read1 and read2 paths of every row exist, [read_samples] returns one
    record per row, the i-th record holding the trimmed fields of the
    i-th row, and prints no warning. *)
Theorem read_samples_all_valid sample_file text w :
  w_fs w !! sample_file = Some (File text) →
  (∀ row, row ∈ csv_reader text →
     ∃ a b c, row = [a; b; c]
       ∧ present (w_fs w) (strip b) = true
       ∧ present (w_fs w) (strip c) = true) →
  ∃ recs,
    read_samples csv_reader py_repr sample_file w = (Ret recs, w)
    ∧ length recs = length (csv_reader text)
    ∧ ∀ i row, csv_reader text !! i = Some row →
        ∃ a b c, row = [a; b; c]
          ∧ recs !! i = Some (strip a, strip b, strip c).
Proof.
  intros Hf Hall.
  destruct (omap_accept_all (w_fs w) (csv_reader text) Hall)
    as (Hw & Hlen & Hnth).
  exists (omap (accept (w_fs w)) (csv_reader text)).
  rewrite (read_samples_open _ _ _ text) by done.
  by rewrite Hw, put_outs_nil.
Qed.

(** C4, as the code has it.  The read files of a three-field row are
    checked in turn: a missing read1 gives one warning naming the sample
    and that path, and read2 is then not looked at; with read1 present,
    a missing read2 gives one warning naming the sample and that path;
    either way the row gives no record and the loop goes on with the
    next row.  So in the run over the whole manifest such a row adds, at
    its place between what the rows before it and the rows after it
    add, exactly that one warning and no record, and a row with both
    files gives its record and no warning.  No returned record has a
    missing read file. *)
Theorem read_files_checked_in_turn sample_file text pre a b c post w :
  w_fs w !! sample_file = Some (File text) →
  csv_reader text = pre ++ [a; b; c] :: post →
  ∃ recs w' mid midw,
    read_samples csv_reader py_repr sample_file w = (Ret recs, w')
    ∧ recs = omap (accept (w_fs w)) pre ++ mid ++ omap (accept (w_fs w)) post
    ∧ w_out w' =
      w_out w ++ warnings (w_fs w) 1 pre ++ midw
      ++ warnings (w_fs w) (S (S (length pre))) post
    ∧ (if negb (present (w_fs w) (strip b)) then
         mid = []
         ∧ midw = ["Warning: Read1 file not found for " +:+ strip a
                   +:+ ": " +:+ strip b]
       else if negb (present (w_fs w) (strip c)) then
         mid = []
         ∧ midw = ["Warning: Read2 file not found for " +:+ strip a
                   +:+ ": " +:+ strip c]
       else
         mid = [(strip a, strip b, strip c)] ∧ midw = [])
    ∧ (∀ s, s ∈ recs →
         present (w_fs w) (s_read1 s) = true ∧ present (w_fs w) (s_read2 s) = true)
    ∧ ∀ n rest acc w0,
        read_rows n ([a; b; c] :: rest) acc w0 =
        if negb (present (w_fs w0) (strip b)) then
          read_rows (S n) rest acc
            (put_out ("Warning: Read1 file not found for " +:+ strip a
                      +:+ ": " +:+ strip b) w0)
        else if negb (present (w_fs w0) (strip c)) then
          read_rows (S n) rest acc
            (put_out ("Warning: Read2 file not found for " +:+ strip a
                      +:+ ": " +:+ strip c) w0)
        else
          read_rows (S n) rest (acc ++ [(strip a, strip b, strip c)]) w0.
Proof.
  intros Hf Hrows.
  exists (omap (accept (w_fs w)) (csv_reader text)),
    (put_outs (warnings (w_fs w) 1 (csv_reader text)) w),
    (option_list (accept (w_fs w) [a; b; c])),
    (row_warning (w_fs w) (S (length pre)) [a; b; c]).
  split; [by apply (read_samples_open _ _ _ text)|].
  split; [|split; [|split; [|split]]].
  - rewrite Hrows, omap_app. cbn [omap list_omap].
    by destruct (accept (w_fs w) [a; b; c]).
  - cbn [put_outs w_out]. rewrite Hrows, warnings_app. cbn [warnings].
    by replace (1 + length pre) with (S (length pre)) by done.
  - unfold accept, row_warning.
    cbn [row_fields mbind option_bind s_read1 s_read2 s_name fst snd].
    destruct (present (w_fs w) (strip b)); cbn [negb andb]; [|done].
    by destruct (present (w_fs w) (strip c)).
  - intros s Hs. by destruct (omap_accept_present _ _ _ Hs) as (? & ? & _).
  - intros n rest acc w0. rewrite read_rows_step.
    unfold accept, row_warning.
    cbn [row_fields mbind option_bind s_read1 s_read2 s_name fst snd].
    destruct (present (w_fs w0) (strip b)); cbn [negb andb].
    + destruct (present (w_fs w0) (strip c)); cbn [negb option_list].
      * by rewrite put_outs_nil.
      * by rewrite app_nil_r.
    + by rewrite app_nil_r.
Qed.

(** C6.  A row whose number of fields is not three makes [read_samples]
    print a warning with the line number and the number of fields and go
    on with the next row; nothing is raised.  The records returned are
    those of the manifest without that row, and one fewer than those of
    the manifest with a three-field row of present read files in its
    place. *)
Theorem malformed_row_skipped sample_file text pre row post w :
  w_fs w !! sample_file = Some (File text) →
  csv_reader text = pre ++ row :: post →
  length row ≠ 3 →
  (∀ n rest acc w0,
     read_rows n (row :: rest) acc w0 =
     read_rows (S n) rest acc
       (put_out ("Warning: Skipping line " +:+ str_nat n
                 +:+ " - expected 3 columns, got " +:+ str_nat (length row))
          w0))
  ∧ ∃ recs w',
      read_samples csv_reader py_repr sample_file w = (Ret recs, w')
      ∧ ("Warning: Skipping line " +:+ str_nat (S (length pre))
         +:+ " - expected 3 columns, got " +:+ str_nat (length row))
        ∈ w_out w'
      ∧ (∀ file0 text0,
           w_fs w !! file0 = Some (File text0) →
           csv_reader text0 = pre ++ post →
           (read_samples csv_reader py_repr file0 w).1 = Ret recs)
      ∧ (∀ file1 text1 a b c,
           w_fs w !! file1 = Some (File text1) →
           csv_reader text1 = pre ++ [a; b; c] :: post →
           present (w_fs w) (strip b) = true →
           present (w_fs w) (strip c) = true →
           ∃ recs1, (read_samples csv_reader py_repr file1 w).1 = Ret recs1
             ∧ length recs1 = S (length recs)).
Proof.
  intros Hf Hrows Hlen. split.
  - intros n rest acc w0. rewrite read_rows_step.
    unfold accept, row_warning. rewrite (row_fields_None row Hlen).
    cbn [mbind option_bind option_list]. by rewrite app_nil_r.
  - eexists _, _. split; [by apply (read_samples_open _ _ _ text)|].
    rewrite Hrows. split; [|split].
    + cbn [put_outs w_out]. rewrite warnings_app. cbn [warnings].
      unfold row_warning. rewrite (row_fields_None row Hlen).
      apply elem_of_app; right. apply elem_of_app; right.
      apply elem_of_app; left.
      replace (1 + length pre) with (S (length pre)) by done. by left.
    + intros file0 text0 Hf0 Hrows0.
      rewrite (read_samples_open _ _ _ text0) by done.
      cbn [fst]. by rewrite Hrows0, omap_accept_drop.
    + intros file1 text1 a b c Hf1 Hrows1 Hb Hc.
      rewrite (read_samples_open _ _ _ text1) by done.
      eexists. split; [done|].
      rewrite Hrows1, (omap_accept_drop _ pre row post Hlen).
      rewrite !omap_app, !length_app. cbn [omap list_omap].
      assert (accept (w_fs w) [a; b; c] = Some (strip a, strip b, strip c))
        as -> by (apply accept_Some; by repeat split).
      simpl. lia.
Qed.

(** C8, as the code has it.  The name of a returned record is the
    trimmed first field of a three-field row of the manifest, and
    [read_samples] checks nothing about it: the returned names are
    non-empty when those of the three-field rows are, and pairwise
    distinct when those of the three-field rows are. *)
Theorem record_names_from_manifest sample_file text w recs w' :
  w_fs w !! sample_file = Some (File text) →
  read_samples csv_reader py_repr sample_file w = (Ret recs, w') →
  (∀ s, s ∈ recs →
     ∃ a b c, [a; b; c] ∈ csv_reader text ∧ s = (strip a, strip b, strip c))
  ∧ ((∀ a b c, [a; b; c] ∈ csv_reader text → strip a ≠ EmptyString) →
     ∀ s, s ∈ recs → s_name s ≠ EmptyString)
  ∧ ((∀ i j a b c a' b' c',
        csv_reader text !! i = Some [a; b; c] →
        csv_reader text !! j = Some [a'; b'; c'] →
        strip a = strip a' → i = j) →
     NoDup (s_name <$> recs)).
Proof.
  intros Hf Hrun. rewrite (read_samples_open _ _ _ text) in Hrun by done.
  injection Hrun as <- _.
  assert (∀ s, s ∈ omap (accept (w_fs w)) (csv_reader text) →
            ∃ a b c, [a; b; c] ∈ csv_reader text
              ∧ s = (strip a, strip b, strip c)) as Hfrom.
  { intros s Hs. by destruct (omap_accept_present _ _ _ Hs) as (_ & _ & ?). }
  split; [done|]. split.
  - intros Hne s Hs. destruct (Hfrom s Hs) as (a & b & c & Hin & ->).
    by apply (Hne a b c).
  - apply omap_accept_NoDup.
Qed.

End ReaderClaims.

(** ** The counts *)

Lemma py_sum_ones {A} (l : list A) : py_sum ((λ _, 1%Z) <$> l) = Z.of_nat (length l).
Proof.
  unfold py_sum.
  assert (∀ a, fold_left Z.add ((λ _, 1%Z) <$> l) a = (a + Z.of_nat (length l))%Z)
    as H; [|by rewrite H].
  induction l as [|x l IH]; intros a; simpl fold_left.
  - simpl. lia.
  - rewrite IH. cbn [length]. lia.
Qed.

Lemma n_successful_length results :
  n_successful results = Z.of_nat (length (List.filter success results)).
Proof. unfold n_successful. apply py_sum_ones. Qed.

Lemma n_failed_length results :
  n_failed results =
  Z.of_nat (length (List.filter (λ r, negb (success r)) results)).
Proof.
  unfold n_failed, n_total. rewrite n_successful_length.
  induction results as [|r rest IH]; [done|].
  cbn [List.filter length]. destruct (success r); cbn [negb length]; lia.
Qed.

Lemma n_failed_zero results :
  n_failed results = 0%Z ↔ ∀ r, r ∈ results → success r = true.
Proof.
  rewrite n_failed_length. induction results as [|r rest IH].
  - split; [|done]. intros _ r Hr. by apply elem_of_nil in Hr.
  - cbn [List.filter]. destruct (success r) eqn:E; cbn [negb].
    + rewrite IH. split.
      * intros H r' [->|Hr']%elem_of_cons; auto.
      * intros H r' Hr'. apply H. by right.
    + cbn [length]. split; [lia|]. intros H.
      specialize (H r (list_elem_of_here _ _)). congruence.
Qed.

Lemma n_failed_nonzero results :
  n_failed results ≠ 0%Z ↔ ∃ r, r ∈ results ∧ success r = false.
Proof.
  rewrite n_failed_zero. split.
  - induction results as [|r rest IH]; intros H.
    + exfalso. apply H. intros r Hr. by apply elem_of_nil in Hr.
    + destruct (success r) eqn:E.
      * destruct IH as (r' & Hr' & Hf).
        { intros Hall. apply H. intros r' [->|Hr']%elem_of_cons; auto. }
        exists r'. split; [by right | done].
      * exists r. split; [by left | done].
  - intros (r & Hr & Hf) Hall. specialize (Hall r Hr). congruence.
Qed.

(** ** The runner, the loop and the report *)

Section Batch.

Variable tool : nat → list string → gmap string node → outcome * gmap string node.
Variable strftime_now : nat → string.
Variable py_repr : string → string.

(** One launch: the value is whether the tool exited with status 0; the
    banner and the notice are printed, the clock is read once and the
    command is run once.  Nothing is raised. *)
Lemma run_getorganelle_run name read1 read2 out args w :
  let cmd := getorganelle_cmd read1 read2 (os_path_join out (name +:+ "_mt")) args in
  let o := tool (length (w_runs w)) cmd (w_fs w) in
  run_getorganelle tool strftime_now py_repr name read1 read2 out args w =
  (Ret (outcome_ok o.1),
   mkWorld (w_out w ++ run_banner name (strftime_now (w_clock w)) cmd
              ++ run_notice name o.1)
     o.2 (S (w_clock w)) (w_runs w ++ [cmd])).
Proof.
  intros cmd o. unfold run_getorganelle. fold cmd.
  rewrite !print_then, bind_run. unfold datetime_now at 1.
  rewrite !print_then. unfold try_except. rewrite bind_run.
  unfold subprocess_run. cbn [put_out w_out w_fs w_clock w_runs].
  fold o. destruct o as [[rc so se|d] fs']; cbn [fst snd outcome_ok run_notice].
  - case_bool_decide; rewrite !print_then; unfold put_out, run_banner;
      cbn [w_out w_fs w_clock w_runs mret M_ret];
      by rewrite <- !app_assoc.
  - rewrite !print_then. unfold put_out, run_banner.
    cbn [w_out w_fs w_clock w_runs mret M_ret str_exn].
    by rewrite <- !app_assoc.
Qed.

Lemma generate_summary_run results out w :
  let path := os_path_join out "batch_assembly_summary.txt" in
  generate_summary strftime_now results out w =
  (Ret path,
   mkWorld (w_out w ++ [nl +:+ "Summary report saved to: " +:+ path])
     (<[path := File (summary_text (strftime_now (w_clock w)) results)]> (w_fs w))
     (S (w_clock w)) (w_runs w)).
Proof. reflexivity. Qed.

Lemma print_failed_run results : ∀ w,
  ∃ l, print_failed results w = (Ret tt, put_outs l w).
Proof.
  induction results as [|r rest IH]; intros w.
  - exists []. by rewrite put_outs_nil.
  - cbn [print_failed]. rewrite bind_run. destruct (success r); cbn [negb].
    + cbn [mret M_ret]. apply IH.
    + unfold print at 1. destruct (IH (put_out ("  - " +:+ sample_name r) w)) as [l Hl].
      exists (("  - " +:+ sample_name r) :: l). by rewrite Hl, put_outs_out.
Qed.

(** The end of [main]: the report is written over whatever was at its
    path, and the script exits with 0 when no result failed and 1
    otherwise.  No command is run. *)
Lemma main_report_run args results w :
  let path := os_path_join (output_dir args) "batch_assembly_summary.txt" in
  ∃ w',
    main_report strftime_now args results w =
    (SysExit (if (n_failed results =? 0)%Z then 0%Z else 1%Z), w')
    ∧ w_fs w' = <[path := File (summary_text (strftime_now (w_clock w)) results)]> (w_fs w)
    ∧ w_runs w' = w_runs w.
Proof.
  intros path. unfold main_report. rewrite !print_then, bind_run.
  rewrite generate_summary_run. rewrite !print_then, bind_run.
  destruct (0 <? n_failed results)%Z.
  - rewrite print_then.
    match goal with |- context [print_failed results ?w0] =>
      destruct (print_failed_run results w0) as [l ->] end.
    eexists. split; [reflexivity|]. by split.
  - eexists. split; [reflexivity|]. by split.
Qed.

(** The loop: it never raises; what it adds to the results are, in order,
    the names of the first samples of the list, as many as it has run
    commands for; it attempts at least the first sample. *)
Lemma main_loop_run args total todo : ∀ i acc w,
  ∃ res w',
    main_loop tool strftime_now py_repr args total i todo acc w = (Ret (acc ++ res), w')
    ∧ sample_name <$> res = s_name <$> take (length res) todo
    ∧ w_runs w' = w_runs w ++ (sample_cmd args <$> take (length res) todo)
    ∧ w_clock w' = w_clock w + length res
    ∧ (todo ≠ [] → res ≠ [])
    ∧ (continue_on_error args = true → length res = length todo).
Proof.
  induction todo as [|[[name read1] read2] rest IH]; intros i acc w.
  - exists [], w. cbn. rewrite !app_nil_r. repeat split; [lia | done].
  - cbn [main_loop]. rewrite print_then, bind_run, run_getorganelle_run.
    set (o := tool _ _ _). set (w1 := mkWorld _ _ _ _).
    destruct (negb (outcome_ok o.1) && negb (continue_on_error args)) eqn:Hstop.
    + rewrite print_then. exists [mkResult name (outcome_ok o.1)]. eexists.
      split; [reflexivity|]. cbn. repeat split; [lia | done |].
      intros Hc. rewrite Hc in Hstop. by rewrite andb_false_r in Hstop.
    + destruct (IH (S i) (acc ++ [mkResult name (outcome_ok o.1)]) w1)
        as (res & w' & Hrun & Hnames & Hruns & Hclock & _ & Hall).
      exists (mkResult name (outcome_ok o.1) :: res), w'.
      rewrite Hrun, <- app_assoc. split; [done|].
      cbn [length take fmap list_fmap]. rewrite Hnames, Hruns, Hclock.
      cbn. rewrite <- app_assoc. repeat split; [lia | done |].
      intros Hc. by rewrite (Hall Hc).
Qed.

End Batch.

Section Controller.

Variable csv_reader : string → list (list string).
Variable tool : nat → list string → gmap string node → outcome * gmap string node.
Variable strftime_now : nat → string.
Variable py_repr : string → string.

Lemma os_makedirs_run p w :
  ∃ w', os_makedirs p w = (Ret tt, w')
    ∧ w_out w' = w_out w ∧ w_runs w' = w_runs w ∧ w_clock w' = w_clock w
    ∧ ∀ q, q ≠ p → w_fs w' !! q = w_fs w !! q.
Proof.
  unfold os_makedirs. destruct (w_fs w !! p) eqn:E.
  - exists w. by repeat split.
  - eexists. split; [reflexivity|]. repeat split.
    intros q Hq. cbn. by rewrite lookup_insert_ne.
Qed.

(** [main] up to the loop, when the manifest gives samples *)
Lemma main_run args w todo wr :
  read_samples csv_reader py_repr (samples args)
    (before_reading args w)
  = (Ret todo, wr) →
  todo ≠ [] →
  main csv_reader tool strftime_now py_repr args w =
  (results ← main_loop tool strftime_now py_repr args (length todo) 1 todo [];
   main_report strftime_now args results) (put_outs (announce args todo) wr).
Proof.
  intros Hread Hne. unfold main. rewrite bind_run.
  unfold before_reading in Hread.
  destruct (os_makedirs_run (output_dir args) w) as (w0 & Hmk & _).
  rewrite Hmk in *. cbn [snd] in Hread. rewrite print_then, bind_run.
  unfold reading_line in Hread. rewrite Hread.
  rewrite bind_run. rewrite bool_decide_eq_false_2 by done.
  cbn [mret M_ret]. rewrite !print_then. unfold announce, put_outs, put_out.
  cbn [w_out w_fs w_clock w_runs]. by rewrite <- !app_assoc.
Qed.

(** With continue-on-error unset, a sample that fails after a run of
    samples that succeeded ends the loop. *)
Lemma main_loop_stops args total s post :
  continue_on_error args = false →
  ∀ pre i acc w w1 w2,
    main_loop tool strftime_now py_repr args total i pre acc w
    = (Ret (acc ++ (passed <$> pre)), w1) →
    run_getorganelle tool strftime_now py_repr
      (s_name s) (s_read1 s) (s_read2 s) (output_dir args) args
      (put_out (progress_line (i + length pre) total s) w1)
    = (Ret false, w2) →
    main_loop tool strftime_now py_repr args total i (pre ++ s :: post) acc w
    = (Ret (acc ++ (passed <$> pre) ++ [mkResult (s_name s) false]),
       put_out stop_line w2).
Proof.
  intros Hc. induction pre as [|[[name read1] read2] pre IH];
    intros i acc w w1 w2 Hpre Hs.
  - cbn in Hpre. rewrite app_nil_r in Hpre. injection Hpre as <-.
    destruct s as [[name read1] read2]. cbn [app fmap list_fmap main_loop].
    rewrite print_then, bind_run. cbn [length] in Hs. rewrite Nat.add_0_r in Hs.
    unfold progress_line in Hs. cbn [s_name s_read1 s_read2 fst snd] in Hs.
    rewrite Hs, Hc. cbn [negb andb]. by rewrite print_then.
  - cbn [app fmap list_fmap main_loop] in Hpre |- *.
    rewrite print_then, bind_run, run_getorganelle_run in Hpre |- *.
    set (o := tool _ _ _) in Hpre |- *. rewrite Hc in Hpre |- *.
    destruct (outcome_ok o.1); cbn [negb andb] in Hpre |- *.
    + cbn [length] in Hs. rewrite Nat.add_succ_r in Hs.
      rewrite (IH (S i) _ _ w1 w2); [by rewrite <- app_assoc | | done].
      rewrite Hpre. by rewrite <- app_assoc.
    + rewrite print_then in Hpre. injection Hpre as Hpre _.
      apply app_inv_head in Hpre. discriminate.
Qed.

(** Given the namespace, [main] always comes to [sys.exit], with status
    0 or 1. *)
Lemma main_exits args w :
  ∃ code w',
    main csv_reader tool strftime_now py_repr args w = (SysExit code, w')
    ∧ exit_status (main csv_reader tool strftime_now py_repr args w).1 = code
    ∧ (code = 0%Z ∨ code = 1%Z).
Proof.
  destruct (read_samples_total csv_reader py_repr (samples args)
              (before_reading args w))
    as (r & wr & Hread & _ & _ & _ & [-> | (text & _ & ->)]).
  - exists 1%Z, wr. unfold main. rewrite bind_run.
    unfold before_reading, reading_line in Hread.
    destruct (os_makedirs_run (output_dir args) w) as (w0 & Hmk & _).
    rewrite Hmk in Hread |- *. cbn [snd] in Hread.
    rewrite print_then, bind_run, Hread. cbn [fst exit_status]. auto.
  - set (todo := omap _ _) in Hread. destruct (decide (todo = [])) as [He|Hne].
    + exists 1%Z. eexists. unfold main. rewrite bind_run.
      unfold before_reading, reading_line in Hread.
      destruct (os_makedirs_run (output_dir args) w) as (w0 & Hmk & _).
      rewrite Hmk in Hread |- *. cbn [snd] in Hread.
      rewrite print_then, bind_run, Hread, bind_run.
      rewrite bool_decide_eq_true_2 by done. rewrite print_then.
      cbn [fst exit_status sys_exit]. auto.
    + rewrite (main_run args w todo wr Hread Hne), bind_run.
      destruct (main_loop_run tool strftime_now py_repr args (length todo) todo
                  1 [] (put_outs (announce args todo) wr))
        as (results & w1 & Hloop & _).
      cbn [app] in Hloop. rewrite Hloop.
      destruct (main_report_run strftime_now args results w1) as (w2 & -> & _).
      eexists _, w2. cbn [fst exit_status]. split; [done|]. split; [done|].
      destruct (n_failed results =? 0)%Z; auto.
Qed.

End Controller.

(** ** Lengths *)

Lemma str_length_app (s t : string) :
  String.length (s +:+ t) = String.length s + String.length t.
Proof. induction s as [|c s IH]; simpl; [done | by rewrite IH]. Qed.

Lemma length_spaces n : String.length (str_mul " " n) = n.
Proof.
  induction n as [|n IH]; [done|].
  cbn [str_mul]. rewrite str_length_app, IH. done.
Qed.

Lemma length_ljust w s : String.length (ljust w s) = Nat.max w (String.length s).
Proof. unfold ljust. rewrite str_length_app, length_spaces. lia. Qed.

(** The report is a file inside the output directory, never the
    directory's own path. *)
Lemma summary_path_ne out : summary_path out ≠ out.
Proof.
  intros H. apply (f_equal String.length) in H. revert H.
  unfold summary_path, os_path_join. cbn [startswith String.prefix].
  destruct (ascii_dec _ _) as [Habs|_]; [discriminate Habs|].
  destruct (_ || _); rewrite !str_length_app; simpl; lia.
Qed.

Section BatchClaims.

Variable csv_reader : string → list (list string).
Variable tool : nat → list string → gmap string node → outcome * gmap string node.
Variable strftime_now : nat → string.
Variable py_repr : string → string.

(** C7.  [run_getorganelle] always returns, never raises: true when the
    tool exits with status 0; false, after printing the failure notice and
    then the captured error stream as it is, when the tool exits with
    another status; false, after printing the error notice and then the
    description of the fault, when the tool cannot be launched or the
    launch fails otherwise. *)
Theorem run_getorganelle_classifies name read1 read2 out args w :
  ∃ ok w',
    run_getorganelle tool strftime_now py_repr name read1 read2 out args w
    = (Ret ok, w')
    ∧ match (tool (length (w_runs w))
               (getorganelle_cmd read1 read2
                  (os_path_join out (name +:+ "_mt")) args)
               (w_fs w)).1 with
      | Exited rc _ err =>
          if decide (rc = 0%Z) then ok = true
          else ok = false
               ∧ ∃ before,
                   w_out w' =
                   before ++ [nl +:+ "[FAILED] " +:+ name +:+ " failed with error:";
                              err]
      | Fault d =>
          ok = false
          ∧ ∃ before,
              w_out w' =
              before ++ [nl +:+ "[ERROR] Unexpected error for " +:+ name +:+ ":";
                         d]
      end.
Proof.
  eexists _, _. split; [apply run_getorganelle_run|].
  cbn [w_out]. destruct (tool _ _ _) as [[rc so se|d] fs'];
    cbn [fst outcome_ok run_notice].
  - case_decide as Hrc.
    + by rewrite bool_decide_eq_true_2.
    + rewrite !bool_decide_eq_false_2 by done. split; [done|].
      eexists. by rewrite app_assoc.
  - split; [done|]. eexists. by rewrite app_assoc.
Qed.

(** C1.  With continue-on-error unset, when the manifest gives the samples
    [pre ++ s :: post], every sample of [pre] succeeds and [s], the k-th,
    is the first to fail, the results that reach the report are those of
    the first k samples in order, the commands run are those of the first
    k samples and no other, the report holds these results, and the
    script exits with status 1. *)
Theorem stop_at_first_failure args pre s post w wr w1 w2 :
  continue_on_error args = false →
  read_samples csv_reader py_repr (samples args)
    (before_reading args w)
  = (Ret (pre ++ s :: post), wr) →
  main_loop tool strftime_now py_repr args (length (pre ++ s :: post)) 1
    pre [] (put_outs (announce args (pre ++ s :: post)) wr)
  = (Ret (passed <$> pre), w1) →
  run_getorganelle tool strftime_now py_repr
    (s_name s) (s_read1 s) (s_read2 s) (output_dir args) args
    (put_out (progress_line (S (length pre)) (length (pre ++ s :: post)) s) w1)
  = (Ret false, w2) →
  ∃ w3 w4,
    main_loop tool strftime_now py_repr args (length (pre ++ s :: post)) 1
      (pre ++ s :: post) [] (put_outs (announce args (pre ++ s :: post)) wr)
    = (Ret ((passed <$> pre) ++ [mkResult (s_name s) false]), w3)
    ∧ w_runs w3 = w_runs w ++ (sample_cmd args <$> (pre ++ [s]))
    ∧ main csv_reader tool strftime_now py_repr args w = (SysExit 1, w4)
    ∧ w_runs w4 = w_runs w3
    ∧ w_fs w4 !! summary_path (output_dir args) =
      Some (File (summary_text (strftime_now (w_clock w3))
                    ((passed <$> pre) ++ [mkResult (s_name s) false]))).
Proof.
  intros Hc Hread Hpre Hs.
  pose proof (main_loop_stops tool strftime_now py_repr args _ s post Hc
                pre 1 [] _ w1 w2 Hpre Hs) as Hloop.
  cbn [app] in Hloop.
  destruct (main_report_run strftime_now args
              ((passed <$> pre) ++ [mkResult (s_name s) false])
              (put_out stop_line w2)) as (w4 & Hrep & Hfs & Hruns).
  exists (put_out stop_line w2), w4. split; [done|].
  assert (w_runs wr = w_runs w) as Hwr.
  { destruct (read_samples_total csv_reader py_repr (samples args)
                (before_reading args w))
      as (r & w' & Hr & _ & Hruns' & _).
    rewrite Hread in Hr. injection Hr as _ <-. rewrite Hruns'.
    unfold before_reading.
    destruct (os_makedirs_run (output_dir args) w) as (w0 & Hmk & _ & Hmr & _).
    by rewrite Hmk. }
  split.
  { destruct (main_loop_run tool strftime_now py_repr args
                (length (pre ++ s :: post)) (pre ++ s :: post) 1 []
                (put_outs (announce args (pre ++ s :: post)) wr))
      as (res & w' & Hrun & _ & Hruns' & _).
    rewrite Hloop in Hrun. injection Hrun as <- <-.
    rewrite Hruns'. cbn [put_outs w_runs]. rewrite Hwr.
    rewrite length_app, length_fmap. cbn [length].
    rewrite take_app, take_ge by lia.
    by replace (length pre + 1 - length pre) with 1 by lia. }
  assert (n_failed ((passed <$> pre) ++ [mkResult (s_name s) false]) ≠ 0%Z) as Hf.
  { rewrite n_failed_zero. intros H.
    specialize (H (mkResult (s_name s) false)). cbn in H.
    assert (false = true) by (apply H, elem_of_app; right; by left). done. }
  apply Z.eqb_neq in Hf. rewrite Hf in Hrep.
  rewrite (main_run csv_reader tool strftime_now py_repr args w _ wr Hread)
    by (by destruct pre).
  rewrite bind_run, Hloop. split; [done|]. split; [done|].
  unfold summary_path. rewrite Hfs. by rewrite lookup_insert_eq.
Qed.

(** C2.  Whatever the results, the three counts satisfy
    total = successful + failed, where total is the number of results,
    successful the number of those that succeeded and failed the number of
    those that did not; after the report the script exits with status 0
    when failed is 0, that is when every result succeeded, and with
    status 1 when some result failed. *)
Theorem counts_and_exit_code args results w :
  n_total results = (n_successful results + n_failed results)%Z
  ∧ n_total results = Z.of_nat (length results)
  ∧ n_successful results = Z.of_nat (length (List.filter success results))
  ∧ n_failed results =
    Z.of_nat (length (List.filter (λ r, negb (success r)) results))
  ∧ ∃ code w',
      main_report strftime_now args results w = (SysExit code, w')
      ∧ (code = 0%Z ↔ n_failed results = 0%Z)
      ∧ (code = 0%Z ↔ ∀ r, r ∈ results → success r = true)
      ∧ (code = 1%Z ↔ ∃ r, r ∈ results ∧ success r = false).
Proof.
  split; [unfold n_failed; lia|]. split; [done|].
  split; [apply n_successful_length|]. split; [apply n_failed_length|].
  destruct (main_report_run strftime_now args results w) as (w' & Hrep & _).
  eexists _, w'. split; [exact Hrep|].
  rewrite <- n_failed_nonzero, <- n_failed_zero.
  destruct (Z.eqb_spec (n_failed results) 0) as [E|E];
    (split; [|split]); split; intros H; done.
Qed.

(** C5.  When [read_samples] returns no sample, [main] prints that no
    valid samples were found and exits with status 1; no command is run
    and nothing is written: the path of the report holds what it held
    before the run. *)
Theorem no_valid_samples_is_fatal args w w1 :
  read_samples csv_reader py_repr (samples args)
    (before_reading args w)
  = (Ret [], w1) →
  main csv_reader tool strftime_now py_repr args w
  = (SysExit 1, put_out "Error: No valid samples found in the input file" w1)
  ∧ w_runs w1 = w_runs w
  ∧ w_fs w1 = w_fs (os_makedirs (output_dir args) w).2
  ∧ w_fs w1 !! summary_path (output_dir args)
    = w_fs w !! summary_path (output_dir args).
Proof.
  intros Hread.
  destruct (os_makedirs_run (output_dir args) w)
    as (w0 & Hmk & _ & Hmr & _ & Hmf).
  destruct (read_samples_total csv_reader py_repr (samples args)
              (before_reading args w))
    as (r & w' & Hr & Hfs & Hruns & _).
  rewrite Hread in Hr. injection Hr as _ <-.
  unfold before_reading in Hread, Hfs, Hruns |- *.
  rewrite Hmk in Hread, Hfs, Hruns |- *. cbn [snd put_out w_fs w_runs] in *.
  split.
  - unfold main. rewrite bind_run, Hmk, print_then, bind_run.
    unfold reading_line in Hread. rewrite Hread.
    by rewrite bind_run, bool_decide_eq_true_2.
  - rewrite Hfs, Hruns, Hmr. repeat split.
    apply Hmf, summary_path_ne.
Qed.

(** C9, as the code has it.  [generate_summary] writes, at the path of the
    report, the title, a rule, the time of generation, the three counts,
    a heading, a rule, and then one line per result in order: the sample
    name followed by the spaces that fill it to 30 characters (the name
    comes first, the padding after it), one space, [SUCCESS] when the
    result succeeded and [FAILED] otherwise, and a newline. *)
Theorem summary_file_contents results out w :
  ∃ w',
    generate_summary strftime_now results out w = (Ret (summary_path out), w')
    ∧ w_fs w' !! summary_path out =
      Some (File (summary_head (strftime_now (w_clock w)) results
                  +:+ join EmptyString (detail_line <$> results)))
    ∧ summary_head (strftime_now (w_clock w)) results =
      "GetOrganelle Batch Assembly Summary" +:+ nl
      +:+ str_mul "=" 60 +:+ nl
      +:+ "Generated: " +:+ strftime_now (w_clock w) +:+ nl +:+ nl
      +:+ "Total samples: " +:+ str_Z (Z.of_nat (length results)) +:+ nl
      +:+ "Successful: "
      +:+ str_Z (Z.of_nat (length (List.filter success results))) +:+ nl
      +:+ "Failed: "
      +:+ str_Z (Z.of_nat (length
                   (List.filter (λ r, negb (success r)) results)))
      +:+ nl +:+ nl
      +:+ "Sample Details:" +:+ nl
      +:+ str_mul "-" 60 +:+ nl
    ∧ length (detail_line <$> results) = length results
    ∧ ∀ r,
        detail_line r =
        (sample_name r +:+ str_mul " " (30 - String.length (sample_name r)))
        +:+ " " +:+ (if success r then "SUCCESS" else "FAILED") +:+ nl
        ∧ String.length
            (sample_name r +:+ str_mul " " (30 - String.length (sample_name r)))
          = Nat.max 30 (String.length (sample_name r)).
Proof.
  eexists. split; [apply generate_summary_run|]. cbn [w_fs].
  split; [unfold summary_path; by rewrite lookup_insert_eq|].
  split.
  { unfold summary_head.
    by rewrite n_failed_length, n_successful_length. }
  split; [apply length_fmap|].
  intros r. split; [done|]. apply length_ljust.
Qed.


End BatchClaims.

(** ** The theorems at work on concrete runs *)

Lemma read_samples_all_valid_witness :
  w_fs (Demo.start Demo.manifest_ok) !! "samples.txt" = Some (File Demo.manifest_ok)
  ∧ (∀ row, row ∈ Demo.csv_reader Demo.manifest_ok →
       ∃ a b c, row = [a; b; c]
         ∧ present (w_fs (Demo.start Demo.manifest_ok)) (strip b) = true
         ∧ present (w_fs (Demo.start Demo.manifest_ok)) (strip c) = true)
  ∧ ∃ recs,
      Demo.read_samples "samples.txt" (Demo.start Demo.manifest_ok)
      = (Ret recs, Demo.start Demo.manifest_ok)
      ∧ length recs = length (Demo.csv_reader Demo.manifest_ok)
      ∧ ∀ i row, Demo.csv_reader Demo.manifest_ok !! i = Some row →
          ∃ a b c, row = [a; b; c]
            ∧ recs !! i = Some (strip a, strip b, strip c).
Proof.
  assert (w_fs (Demo.start Demo.manifest_ok) !! "samples.txt"
          = Some (File Demo.manifest_ok)) as H1 by (vm_compute; reflexivity).
  assert (∀ row, row ∈ Demo.csv_reader Demo.manifest_ok →
            ∃ a b c, row = [a; b; c]
              ∧ present (w_fs (Demo.start Demo.manifest_ok)) (strip b) = true
              ∧ present (w_fs (Demo.start Demo.manifest_ok)) (strip c) = true)
    as H2.
  { intros row Hin. apply list_elem_of_In in Hin. vm_compute in Hin.
    destruct Hin as [<-|[<-|[]]]; eexists _, _, _;
      (split; [reflexivity|]); split; vm_compute; reflexivity. }
  exact (conj H1 (conj H2
    (read_samples_all_valid Demo.csv_reader Demo.py_repr
       "samples.txt" Demo.manifest_ok (Demo.start Demo.manifest_ok) H1 H2))).
Defined.

(** C4 fails as stated: with both read files of a row missing, only the
    warning for read1 is printed. *)
Lemma both_reads_missing_one_warning :
  Demo.csv_reader Demo.manifest_missing = [["s9"; "x_1.fq"; "x_2.fq"]]
  ∧ present (w_fs (Demo.start Demo.manifest_missing)) "x_1.fq" = false
  ∧ present (w_fs (Demo.start Demo.manifest_missing)) "x_2.fq" = false
  ∧ Demo.read_samples "samples.txt" (Demo.start Demo.manifest_missing)
    = (Ret [],
       put_out "Warning: Read1 file not found for s9: x_1.fq"
         (Demo.start Demo.manifest_missing))
  ∧ w_out (Demo.read_samples "samples.txt" (Demo.start Demo.manifest_missing)).2
    = ["Warning: Read1 file not found for s9: x_1.fq"].
Proof. repeat split; vm_compute; reflexivity. Qed.

Lemma read_files_checked_in_turn_witness :
  w_fs (Demo.start Demo.manifest_gaps) !! "samples.txt"
  = Some (File Demo.manifest_gaps)
  ∧ Demo.csv_reader Demo.manifest_gaps
    = [["s1"; "a_1.fq"; "a_2.fq"]] ++ ["s5"; "a_1.fq"; "x_2.fq"]
      :: [["s6"; "x_1.fq"; "a_2.fq"]; ["s9"; "x_1.fq"; "x_2.fq"];
          ["s2"; "c_1.fq"; "c_2.fq"]]
  ∧ present (w_fs (Demo.start Demo.manifest_gaps)) "a_1.fq" = true
  ∧ present (w_fs (Demo.start Demo.manifest_gaps)) "x_2.fq" = false
  ∧ ∃ recs w',
      Demo.read_samples "samples.txt" (Demo.start Demo.manifest_gaps)
      = (Ret recs, w')
      ∧ recs = [("s1", "a_1.fq", "a_2.fq"); ("s2", "c_1.fq", "c_2.fq")]
      ∧ w_out w' =
        [ "Warning: Read2 file not found for s5: x_2.fq";
          "Warning: Read1 file not found for s6: x_1.fq";
          "Warning: Read1 file not found for s9: x_1.fq" ].
Proof.
  assert (w_fs (Demo.start Demo.manifest_gaps) !! "samples.txt"
          = Some (File Demo.manifest_gaps)) as H1 by (vm_compute; reflexivity).
  assert (Demo.csv_reader Demo.manifest_gaps
          = [["s1"; "a_1.fq"; "a_2.fq"]] ++ ["s5"; "a_1.fq"; "x_2.fq"]
            :: [["s6"; "x_1.fq"; "a_2.fq"]; ["s9"; "x_1.fq"; "x_2.fq"];
                ["s2"; "c_1.fq"; "c_2.fq"]]) as H2 by (vm_compute; reflexivity).
  split; [exact H1|]. split; [exact H2|].
  split; [vm_compute; reflexivity|]. split; [vm_compute; reflexivity|].
  destruct (read_files_checked_in_turn Demo.csv_reader Demo.py_repr
              "samples.txt" Demo.manifest_gaps _ _ _ _ _
              (Demo.start Demo.manifest_gaps) H1 H2)
    as (recs & w' & mid & midw & Hrun & Hrecs & Hout & Hcase & _).
  vm_compute in Hcase. destruct Hcase as [Hmid Hmidw].
  exists recs, w'. split; [exact Hrun|].
  rewrite Hrecs, Hout, Hmid, Hmidw. split; vm_compute; reflexivity.
Defined.

Lemma malformed_row_skipped_witness :
  w_fs Demo.start3 !! "short.txt" = Some (File Demo.manifest_short)
  ∧ Demo.csv_reader Demo.manifest_short
    = [["s1"; "a_1.fq"; "a_2.fq"]] ++ ["s3"; "x.fq"] :: [["s2"; "c_1.fq"; "c_2.fq"]]
  ∧ length ["s3"; "x.fq"] ≠ 3
  ∧ ∃ recs w',
      Demo.read_samples "short.txt" Demo.start3 = (Ret recs, w')
      ∧ "Warning: Skipping line 2 - expected 3 columns, got 2" ∈ w_out w'
      ∧ (Demo.read_samples "without.txt" Demo.start3).1 = Ret recs
      ∧ ∃ recs1, (Demo.read_samples "mended.txt" Demo.start3).1 = Ret recs1
          ∧ length recs1 = S (length recs).
Proof.
  assert (w_fs Demo.start3 !! "short.txt" = Some (File Demo.manifest_short))
    as H1 by (vm_compute; reflexivity).
  assert (Demo.csv_reader Demo.manifest_short
          = [["s1"; "a_1.fq"; "a_2.fq"]] ++ ["s3"; "x.fq"]
            :: [["s2"; "c_1.fq"; "c_2.fq"]]) as H2 by (vm_compute; reflexivity).
  assert (length ["s3"; "x.fq"] ≠ 3) as H3 by (simpl; lia).
  split; [exact H1|]. split; [exact H2|]. split; [exact H3|].
  destruct (malformed_row_skipped Demo.csv_reader Demo.py_repr
              "short.txt" Demo.manifest_short _ _ _ Demo.start3 H1 H2 H3)
    as (_ & recs & w' & Hrun & Hwarn & Hwithout & Hmended).
  exists recs, w'. split; [exact Hrun|]. split; [exact Hwarn|]. split.
  - apply (Hwithout "without.txt" Demo.manifest_without); vm_compute; reflexivity.
  - apply (Hmended "mended.txt" Demo.manifest_mended "s3" "bad_1.fq" "bad_2.fq");
      vm_compute; reflexivity.
Defined.

(** C8 fails as stated: a blank first field gives a record with the empty
    name, and a name on two lines gives two records with that name. *)
Lemma empty_and_repeated_names_returned :
  Demo.read_samples "samples.txt" (Demo.start Demo.manifest_names)
  = (Ret [(EmptyString, "a_1.fq", "a_2.fq"); ("s1", "a_1.fq", "a_2.fq");
          ("s1", "c_1.fq", "c_2.fq")],
     Demo.start Demo.manifest_names)
  ∧ ¬ NoDup (s_name <$> [(EmptyString, "a_1.fq", "a_2.fq");
                         ("s1", "a_1.fq", "a_2.fq"); ("s1", "c_1.fq", "c_2.fq")]).
Proof.
  split; [vm_compute; reflexivity|].
  intros H. cbn in H. apply NoDup_cons in H as [_ H].
  apply NoDup_cons in H as [H _]. apply H. by left.
Qed.

Lemma record_names_from_manifest_witness :
  w_fs (Demo.start Demo.manifest_ok) !! "samples.txt" = Some (File Demo.manifest_ok)
  ∧ Demo.read_samples "samples.txt" (Demo.start Demo.manifest_ok)
    = (Ret [("s1", "a_1.fq", "a_2.fq"); ("s2", "c_1.fq", "c_2.fq")],
       Demo.start Demo.manifest_ok)
  ∧ (∀ s, s ∈ [("s1", "a_1.fq", "a_2.fq"); ("s2", "c_1.fq", "c_2.fq")] →
       s_name s ≠ EmptyString)
  ∧ NoDup (s_name <$> [("s1", "a_1.fq", "a_2.fq"); ("s2", "c_1.fq", "c_2.fq")]).
Proof.
  assert (w_fs (Demo.start Demo.manifest_ok) !! "samples.txt"
          = Some (File Demo.manifest_ok)) as H1 by (vm_compute; reflexivity).
  assert (Demo.read_samples "samples.txt" (Demo.start Demo.manifest_ok)
          = (Ret [("s1", "a_1.fq", "a_2.fq"); ("s2", "c_1.fq", "c_2.fq")],
             Demo.start Demo.manifest_ok)) as H2 by (vm_compute; reflexivity).
  assert (Demo.csv_reader Demo.manifest_ok
          = [["s1"; "a_1.fq"; "a_2.fq"]; [" s2 "; " c_1.fq"; "c_2.fq "]])
    as Hrows by (vm_compute; reflexivity).
  destruct (record_names_from_manifest Demo.csv_reader Demo.py_repr
              "samples.txt" Demo.manifest_ok _ _ _ H1 H2)
    as (_ & Hne & Hdup).
  split; [exact H1|]. split; [exact H2|]. split.
  - apply Hne. intros a b c Hin. rewrite Hrows in Hin.
    apply list_elem_of_In in Hin.
    destruct Hin as [[= <- <- <-]|[[= <- <- <-]|[]]]; vm_compute; discriminate.
  - apply Hdup. rewrite Hrows.
    intros [|[|i]] [|[|j]] a b c a' b' c' Hi Hj Heq; try done;
      simpl in Hi, Hj; injection Hi as <- <- <-; injection Hj as <- <- <-;
      vm_compute in Heq; discriminate.
Defined.

Lemma no_valid_samples_is_fatal_witness :
  Demo.read_samples (samples (Demo.args "samples.txt" false))
    (before_reading (Demo.args "samples.txt" false)
       (Demo.start Demo.manifest_missing))
  = (Ret [],
     put_out "Warning: Read1 file not found for s9: x_1.fq"
       (before_reading (Demo.args "samples.txt" false)
          (Demo.start Demo.manifest_missing)))
  ∧ (Demo.main (Demo.args "samples.txt" false) (Demo.start Demo.manifest_missing)).1
    = SysExit 1
  ∧ w_fs (Demo.main (Demo.args "samples.txt" false)
            (Demo.start Demo.manifest_missing)).2
    !! "output/batch_assembly_summary.txt" = None.
Proof.
  assert (Demo.read_samples (samples (Demo.args "samples.txt" false))
            (before_reading (Demo.args "samples.txt" false)
               (Demo.start Demo.manifest_missing))
          = (Ret [],
             put_out "Warning: Read1 file not found for s9: x_1.fq"
               (before_reading (Demo.args "samples.txt" false)
                  (Demo.start Demo.manifest_missing)))) as H1
    by (vm_compute; reflexivity).
  destruct (no_valid_samples_is_fatal Demo.csv_reader Demo.tool
              Demo.strftime_now Demo.py_repr _ _ _ H1)
    as (Hmain & _ & _ & Hfs).
  split; [exact H1|]. unfold Demo.main. rewrite Hmain. cbn [fst snd].
  split; [reflexivity|]. vm_compute. reflexivity.
Defined.

Lemma stop_at_first_failure_witness :
  continue_on_error (Demo.args "samples.txt" false) = false
  ∧ ∃ w3 w4,
      Demo.main_loop (Demo.args "samples.txt" false) 3 1
        [("s1", "a_1.fq", "a_2.fq"); ("s2", "bad_1.fq", "bad_2.fq");
         ("s3", "c_1.fq", "c_2.fq")] []
        (put_outs
           (announce (Demo.args "samples.txt" false)
              [("s1", "a_1.fq", "a_2.fq"); ("s2", "bad_1.fq", "bad_2.fq");
               ("s3", "c_1.fq", "c_2.fq")])
           (before_reading (Demo.args "samples.txt" false)
              (Demo.start Demo.manifest_fail)))
      = (Ret [mkResult "s1" true; mkResult "s2" false], w3)
      ∧ w_runs w3
        = [sample_cmd (Demo.args "samples.txt" false) ("s1", "a_1.fq", "a_2.fq");
           sample_cmd (Demo.args "samples.txt" false) ("s2", "bad_1.fq", "bad_2.fq")]
      ∧ Demo.main (Demo.args "samples.txt" false) (Demo.start Demo.manifest_fail)
        = (SysExit 1, w4)
      ∧ w_runs w4 = w_runs w3
      ∧ w_fs w4 !! summary_path "output"
        = Some (File (summary_text (Demo.strftime_now (w_clock w3))
                        [mkResult "s1" true; mkResult "s2" false])).
Proof.
  set (args := Demo.args "samples.txt" false).
  set (w := Demo.start Demo.manifest_fail).
  set (pre := [("s1", "a_1.fq", "a_2.fq")] : list Sample).
  set (s := ("s2", "bad_1.fq", "bad_2.fq") : Sample).
  set (post := [("s3", "c_1.fq", "c_2.fq")] : list Sample).
  assert (continue_on_error args = false) as H1 by reflexivity.
  assert (read_samples Demo.csv_reader Demo.py_repr (samples args)
            (before_reading args w)
          = (Ret (pre ++ s :: post), before_reading args w)) as H2
    by (vm_compute; reflexivity).
  assert (main_loop Demo.tool Demo.strftime_now Demo.py_repr args
            (length (pre ++ s :: post)) 1 pre []
            (put_outs (announce args (pre ++ s :: post)) (before_reading args w))
          = (Ret (passed <$> pre),
             (main_loop Demo.tool Demo.strftime_now Demo.py_repr args
                (length (pre ++ s :: post)) 1 pre []
                (put_outs (announce args (pre ++ s :: post))
                   (before_reading args w))).2)) as H3
    by (vm_compute; reflexivity).
  assert (run_getorganelle Demo.tool Demo.strftime_now Demo.py_repr
            (s_name s) (s_read1 s) (s_read2 s) (output_dir args) args
            (put_out (progress_line (S (length pre)) (length (pre ++ s :: post)) s)
               (main_loop Demo.tool Demo.strftime_now Demo.py_repr args
                  (length (pre ++ s :: post)) 1 pre []
                  (put_outs (announce args (pre ++ s :: post))
                     (before_reading args w))).2)
          = (Ret false,
             (run_getorganelle Demo.tool Demo.strftime_now Demo.py_repr
                (s_name s) (s_read1 s) (s_read2 s) (output_dir args) args
                (put_out
                   (progress_line (S (length pre)) (length (pre ++ s :: post)) s)
                   (main_loop Demo.tool Demo.strftime_now Demo.py_repr args
                      (length (pre ++ s :: post)) 1 pre []
                      (put_outs (announce args (pre ++ s :: post))
                         (before_reading args w))).2)).2)) as H4
    by (vm_compute; reflexivity).
  split; [exact H1|].
  destruct (stop_at_first_failure Demo.csv_reader Demo.tool Demo.strftime_now
              Demo.py_repr args pre s post w _ _ _ H1 H2 H3 H4)
    as (w3 & w4 & Hloop & Hruns & Hmain & Hruns4 & Hfs).
  exists w3, w4. split; [exact Hloop|]. split; [exact Hruns|].
  split; [exact Hmain|]. split; [exact Hruns4|]. exact Hfs.
Defined.


(** C9 fails as stated: the name comes first and the padding after it,
    where padding on the left would put the spaces first. *)
Lemma sample_column_not_left_padded :
  detail_line (mkResult "s1" true)
  = "s1" +:+ str_mul " " 28 +:+ " SUCCESS" +:+ nl
  ∧ detail_line (mkResult "s1" true)
    ≠ left_padded 30 "s1" +:+ " SUCCESS" +:+ nl
  ∧ w_fs (Demo.generate_summary [mkResult "s1" true] "output" (Demo.world [])).2
    !! "output/batch_assembly_summary.txt"
    = Some (File (summary_head "2024-05-01 10:00:00" [mkResult "s1" true]
                  +:+ "s1" +:+ str_mul " " 28 +:+ " SUCCESS" +:+ nl)).
Proof.
  split; [vm_compute; reflexivity|]. split; [|vm_compute; reflexivity].
  vm_compute. discriminate.
Qed.

(** Two samples, both succeeding: the script exits with 0 and the counts
    are 2, 2 and 0. *)
Example two_samples_succeed :
  (Demo.main (Demo.args "samples.txt" false) (Demo.start Demo.manifest_ok)).1
  = SysExit 0
  ∧ (n_total [mkResult "s1" true; mkResult "s2" true],
     n_successful [mkResult "s1" true; mkResult "s2" true],
     n_failed [mkResult "s1" true; mkResult "s2" true]) = (2, 2, 0)%Z.
Proof. split; vm_compute; reflexivity. Qed.

(** ** More on the manifest reader *)

Lemma lstrip_fixed s : lstrip (lstrip s) = lstrip s.
Proof.
  induction s as [|c s IH]; [done|]. cbn [lstrip].
  destruct (is_space c) eqn:E; [done|]. cbn [lstrip]. by rewrite E.
Qed.

Lemma lstrip_length s : String.length (lstrip s) ≤ String.length s.
Proof.
  induction s as [|c s IH]; [done|]. cbn [lstrip].
  destruct (is_space c); cbn [String.length]; lia.
Qed.

(** A string that [lstrip] leaves alone is empty or starts with a
    character that is not a space. *)
Lemma lstrip_id_head c s : lstrip (String c s) = String c s → is_space c = false.
Proof.
  cbn [lstrip]. destruct (is_space c); [|done]. intros H.
  pose proof (lstrip_length s) as Hl. rewrite H in Hl.
  cbn [String.length] in Hl. lia.
Qed.

Lemma lstrip_rstrip s : lstrip s = s → lstrip (rstrip s) = rstrip s.
Proof.
  destruct s as [|c s]; [done|]. intros Hc%lstrip_id_head.
  cbn [rstrip]. destruct (rstrip s); rewrite ?Hc; cbn [lstrip]; by rewrite Hc.
Qed.

Lemma rstrip_fixed s : rstrip (rstrip s) = rstrip s.
Proof.
  induction s as [|c s IH]; [done|]. cbn [rstrip].
  destruct (rstrip s) as [|d r] eqn:E.
  - destruct (is_space c) eqn:Ec; [done|]. cbn [rstrip]. by rewrite Ec.
  - cbn [rstrip] in IH |- *. by rewrite IH.
Qed.

(** Trimming twice is trimming once: a trimmed string has no white space
    left at either end. *)
Lemma strip_fixed s : strip (strip s) = strip s.
Proof.
  unfold strip. rewrite (lstrip_rstrip (lstrip s)) by apply lstrip_fixed.
  apply rstrip_fixed.
Qed.

Lemma row_counted fs n row :
  length (row_warning fs n row) + length (option_list (accept fs row)) = 1.
Proof.
  unfold row_warning, accept. destruct (row_fields row) as [s|]; [|done].
  cbn [mbind option_bind].
  by destruct (present fs (s_read1 s)), (present fs (s_read2 s)).
Qed.

Lemma rows_counted fs (rows : list (list string)) : ∀ n,
  length (warnings fs n rows) + length (omap (accept fs) rows) = length rows.
Proof.
  induction rows as [|row rest IH]; intros n; [done|].
  pose proof (row_counted fs n row) as H1. specialize (IH (S n)).
  cbn [warnings omap list_omap length] in IH |- *. rewrite length_app.
  destruct (accept fs row); simpl in H1; cbn [length]; lia.
Qed.

Lemma omap_accept_sublist fs (rows : list (list string)) :
  sublist (omap (accept fs) rows) (omap row_fields rows).
Proof.
  induction rows as [|row rest IH]; [constructor|].
  cbn [omap list_omap]. destruct (accept fs row) as [s|] eqn:Ha.
  - apply accept_Some in Ha as (-> & _). by constructor.
  - destruct (row_fields row); [by constructor | done].
Qed.

(** A row gives its record and no warning, or no record and one warning. *)
Lemma row_verdict fs n row :
  (∃ s, accept fs row = Some s ∧ row_warning fs n row = [])
  ∨ (accept fs row = None ∧ ∃ msg, row_warning fs n row = [msg]).
Proof.
  unfold row_warning, accept. destruct (row_fields row) as [s|].
  - cbn [mbind option_bind].
    destruct (present fs (s_read1 s)), (present fs (s_read2 s));
      cbn [negb andb]; eauto.
  - right. eauto.
Qed.

Lemma rows_verdicts fs (rows : list (list string)) : ∀ n,
  ∃ verdicts : list (Sample + string),
    length verdicts = length rows
    ∧ omap (accept fs) rows = omap verdict_record verdicts
    ∧ warnings fs n rows = omap verdict_warning verdicts
    ∧ ∀ i row, rows !! i = Some row →
        ∃ v, verdicts !! i = Some v
          ∧ match v with
            | inl s => accept fs row = Some s
            | inr msg =>
                accept fs row = None ∧ row_warning fs (n + i) row = [msg]
            end.
Proof.
  induction rows as [|row rest IH]; intros n.
  - exists []. repeat split. intros i row Hi. by rewrite lookup_nil in Hi.
  - destruct (IH (S n)) as (vs & Hlen & Hrecs & Hwarns & Hnth).
    destruct (row_verdict fs n row) as [(s & Ha & Hw) | (Ha & msg & Hw)].
    + exists (inl s :: vs). cbn [length omap list_omap warnings verdict_record
                                  verdict_warning].
      rewrite Ha, Hw, Hlen, Hrecs, Hwarns. repeat split.
      intros [|i] r Hi.
      * injection Hi as <-. by exists (inl s).
      * destruct (Hnth i r Hi) as (v & Hv & Hm). exists v. split; [done|].
        destruct v; [done | by rewrite Nat.add_succ_r].
    + exists (inr msg :: vs). cbn [length omap list_omap warnings verdict_record
                                    verdict_warning].
      rewrite Ha, Hw, Hlen, Hrecs, Hwarns. repeat split.
      intros [|i] r Hi.
      * injection Hi as <-. exists (inr msg). by rewrite Nat.add_0_r.
      * destruct (Hnth i r Hi) as (v & Hv & Hm). exists v. split; [done|].
        destruct v; [done | by rewrite Nat.add_succ_r].
Qed.

Lemma lstrip_id_bare_head u :
  lstrip u = u → ∀ ch, String.get 0 u = Some ch → is_space ch = false.
Proof.
  destruct u as [|c r]; [done|]. intros Hc%lstrip_id_head ch Hget.
  cbn in Hget. by injection Hget as <-.
Qed.

Lemma rstrip_bare_last s :
  ∀ ch, String.get (String.length (rstrip s) - 1) (rstrip s) = Some ch →
        is_space ch = false.
Proof.
  induction s as [|c r IH]; intros ch; [done|]. cbn [rstrip].
  destruct (rstrip r) as [|d r'] eqn:E.
  - destruct (is_space c) eqn:Ec; [done|]. cbn. by intros [= <-].
  - cbn [String.length]. rewrite Nat.sub_1_r. cbn [Nat.pred String.get].
    intros Hget. apply IH. cbn [String.length]. by rewrite Nat.sub_1_r.
Qed.

Lemma strip_bare s : bare (strip s).
Proof.
  split.
  - apply lstrip_id_bare_head. unfold strip.
    apply lstrip_rstrip, lstrip_fixed.
  - apply rstrip_bare_last.
Qed.

Section ReaderMore.

Variable csv_reader : string → list (list string).
Variable py_repr : string → string.

(** X1.  [read_samples] returns exactly the valid rows: a record is
    returned if and only if it holds the trimmed fields of a three-field
    row of the manifest whose trimmed read1 and read2 paths both exist. *)
Theorem read_samples_returns_valid_rows sample_file text w :
  w_fs w !! sample_file = Some (File text) →
  ∃ recs w',
    read_samples csv_reader py_repr sample_file w = (Ret recs, w')
    ∧ ∀ s, s ∈ recs ↔
        ∃ a b c, [a; b; c] ∈ csv_reader text
          ∧ s = (strip a, strip b, strip c)
          ∧ present (w_fs w) (strip b) = true
          ∧ present (w_fs w) (strip c) = true.
Proof.
  intros Hf. eexists _, _. split; [by apply (read_samples_open _ _ _ text)|].
  intros s. split.
  - intros Hs. destruct (omap_accept_present _ _ _ Hs)
      as (H1 & H2 & a & b & c & Hin & ->). by exists a, b, c.
  - intros (a & b & c & Hin & -> & H1 & H2).
    apply list_elem_of_omap. exists [a; b; c]. split; [done|].
    apply accept_Some. by repeat split.
Qed.

(** X2.  The records come in the order of the manifest: they are what is
    left of the trimmed three-field rows, in order, when some are taken
    out. *)
Theorem read_samples_keeps_order sample_file text w :
  w_fs w !! sample_file = Some (File text) →
  ∃ recs w',
    read_samples csv_reader py_repr sample_file w = (Ret recs, w')
    ∧ sublist recs (omap row_fields (csv_reader text)).
Proof.
  intros Hf. eexists _, _. split; [by apply (read_samples_open _ _ _ text)|].
  apply omap_accept_sublist.
Qed.

(** X3.  Every row is accounted for: each row of the manifest comes to
    one verdict, its record when the row is accepted and otherwise its
    one warning, carrying its line number; the records returned are the
    records of the verdicts in order, and what is printed is the
    warnings of the verdicts in order and nothing else. *)
Theorem read_samples_accounts_for_rows sample_file text w :
  w_fs w !! sample_file = Some (File text) →
  ∃ recs w' (verdicts : list (Sample + string)),
    read_samples csv_reader py_repr sample_file w = (Ret recs, w')
    ∧ length verdicts = length (csv_reader text)
    ∧ recs = omap verdict_record verdicts
    ∧ w_out w' = w_out w ++ omap verdict_warning verdicts
    ∧ ∀ i row, csv_reader text !! i = Some row →
        ∃ v, verdicts !! i = Some v
          ∧ match v with
            | inl s => accept (w_fs w) row = Some s
            | inr msg =>
                accept (w_fs w) row = None
                ∧ row_warning (w_fs w) (S i) row = [msg]
            end.
Proof.
  intros Hf.
  destruct (rows_verdicts (w_fs w) (csv_reader text) 1)
    as (vs & Hlen & Hrecs & Hwarns & Hnth).
  eexists _, _, vs. split; [by apply (read_samples_open _ _ _ text)|].
  split; [done|]. split; [done|]. cbn [put_outs w_out].
  split; [by rewrite Hwarns|]. exact Hnth.
Qed.


(** X5.  When the path of the manifest is a directory, opening it fails
    with an error other than file-not-found: [read_samples] prints the
    error after [Error reading sample file:] and exits with status 1. *)
Theorem read_samples_on_directory sample_file w :
  w_fs w !! sample_file = Some Dir →
  read_samples csv_reader py_repr sample_file w
  = (SysExit 1,
     put_out ("Error reading sample file: [Errno 21] Is a directory: "
              +:+ py_repr sample_file) w).
Proof.
  intros Hf. unfold read_samples, try_except. rewrite bind_run.
  unfold read_text. by rewrite Hf.
Qed.

(** X6.  [read_samples] only prints: whatever the manifest, it returns a
    list or exits with status 1, never raises, and leaves the file system,
    the clock and the record of launches as they were. *)
Theorem read_samples_only_prints sample_file w :
  ∃ r w' printed,
    read_samples csv_reader py_repr sample_file w = (r, w')
    ∧ w' = put_outs printed w
    ∧ (r = SysExit 1%Z ∨ ∃ recs, r = Ret recs).
Proof.
  destruct (w_fs w !! sample_file) as [[text|]|] eqn:Hf.
  - rewrite (read_samples_open _ _ _ text) by done.
    eexists _, _, _. split; [done|]. split; [done|]. right. by eexists.
  - unfold read_samples, try_except. rewrite bind_run. unfold read_text.
    rewrite Hf, print_then. eexists _, _, [_]. split; [done|].
    split; [done|]. by left.
  - unfold read_samples, try_except. rewrite bind_run. unfold read_text.
    rewrite Hf, print_then. eexists _, _, [_]. split; [done|].
    split; [done|]. by left.
Qed.

(** X7.  The fields of a returned record are trimmed: the name, the
    read1 path and the read2 path neither start nor end with a
    white-space character, and trimming them again changes nothing.  The
    trimmed read paths are the ones found to exist, and the ones that
    stand after [-1] and [-2] in the command of the sample. *)
Theorem read_samples_fields_trimmed sample_file w recs w' :
  read_samples csv_reader py_repr sample_file w = (Ret recs, w') →
  ∀ s, s ∈ recs →
    bare (s_name s) ∧ bare (s_read1 s) ∧ bare (s_read2 s)
    ∧ strip (s_name s) = s_name s
    ∧ strip (s_read1 s) = s_read1 s
    ∧ strip (s_read2 s) = s_read2 s
    ∧ present (w_fs w) (s_read1 s) = true
    ∧ present (w_fs w) (s_read2 s) = true
    ∧ ∀ args,
        sample_cmd args s !! 1 = Some "-1"
        ∧ sample_cmd args s !! 2 = Some (s_read1 s)
        ∧ sample_cmd args s !! 3 = Some "-2"
        ∧ sample_cmd args s !! 4 = Some (s_read2 s).
Proof.
  intros Hrun s Hs.
  destruct (read_samples_total csv_reader py_repr sample_file w)
    as (r & w1 & Hr & _ & _ & _ & [-> | (text & _ & ->)]);
    rewrite Hrun in Hr; [done|].
  injection Hr as -> _.
  destruct (omap_accept_present _ _ _ Hs) as (H1 & H2 & a & b & c & _ & ->).
  cbn [s_name s_read1 s_read2 fst snd] in *.
  rewrite !strip_fixed. repeat split; try apply strip_bare; done.
Qed.

End ReaderMore.

(** ** More on the runner, the loop and the end of [main] *)

Lemma startswith_slash_mt name :
  startswith "/" (name +:+ "_mt") = startswith "/" name.
Proof.
  destruct name as [|c r]; [reflexivity|].
  unfold startswith. change (String c r +:+ "_mt") with (String c (r +:+ "_mt")).
  cbn [String.prefix]. destruct (ascii_dec "/" c); [|reflexivity].
  destruct r; reflexivity.
Qed.

Lemma failures_at_most_one (l : list RunResult) :
  (∀ k r, l !! k = Some r → success r = false → length l = S k) →
  length (List.filter (λ r, negb (success r)) l) ≤ 1.
Proof.
  induction l as [|x l IH]; intros H; [simpl; lia|].
  cbn [List.filter]. destruct (success x) eqn:E; cbn [negb].
  - apply IH. intros k r Hk Hr. specialize (H (S k) r Hk Hr).
    cbn [length] in H. lia.
  - specialize (H 0 x eq_refl E). destruct l; [simpl; lia | done].
Qed.

Section BatchMore.

Variable csv_reader : string → list (list string).
Variable tool : nat → list string → gmap string node → outcome * gmap string node.
Variable strftime_now : nat → string.
Variable py_repr : string → string.

Lemma print_failed_lines results : ∀ w,
  print_failed results w =
  (Ret tt,
   put_outs ((λ r, "  - " +:+ sample_name r)
               <$> List.filter (λ r, negb (success r)) results) w).
Proof.
  induction results as [|r rest IH]; intros w.
  - by rewrite put_outs_nil.
  - cbn [print_failed List.filter]. rewrite bind_run.
    destruct (success r); cbn [negb].
    + cbn [mret M_ret]. apply IH.
    + unfold print at 1. rewrite IH. by rewrite put_outs_out.
Qed.

(** The loop, on how it ends: with continue-on-error unset a failed
    result is the last one; and when fewer results come back than there
    were samples, continue-on-error is unset and the last result failed. *)
Lemma main_loop_shape args total todo : ∀ i acc w,
  ∃ res w',
    main_loop tool strftime_now py_repr args total i todo acc w
    = (Ret (acc ++ res), w')
    ∧ (continue_on_error args = false →
       ∀ k r, res !! k = Some r → success r = false → length res = S k)
    ∧ (length res < length todo →
       continue_on_error args = false
       ∧ ∃ r, last res = Some r ∧ success r = false)
    ∧ length res ≤ length todo.
Proof.
  induction todo as [|[[name read1] read2] rest IH]; intros i acc w.
  - exists [], w. cbn. rewrite app_nil_r. split; [done|].
    split; [by intros _ k r Hk|]. split; [lia|done].
  - cbn [main_loop]. rewrite print_then, bind_run, run_getorganelle_run.
    set (o := tool _ _ _). set (w1 := mkWorld _ _ _ _).
    destruct (outcome_ok o.1) eqn:Hok, (continue_on_error args) eqn:Hc;
      cbn [negb andb].
    + destruct (IH (S i) (acc ++ [mkResult name true]) w1)
        as (res & w' & Hrun & _ & Hshort & Hle).
      exists (mkResult name true :: res), w'. rewrite Hrun, <- app_assoc.
      split; [done|]. split; [done|]. cbn [length]. split; [|lia].
      intros Hlt. destruct Hshort as [Hf _]; [lia | done].
    + destruct (IH (S i) (acc ++ [mkResult name true]) w1)
        as (res & w' & Hrun & Hlast & Hshort & Hle).
      exists (mkResult name true :: res), w'. rewrite Hrun, <- app_assoc.
      split; [done|]. cbn [length]. split; [|split; [|lia]].
      * intros _ [|k] r Hk Hr; [by injection Hk as <-|].
        by rewrite (Hlast eq_refl k r Hk Hr).
      * intros Hlt. destruct Hshort as (_ & r & Hr & Hf); [lia|].
        split; [done|]. exists r. split; [|done].
        rewrite last_cons. by rewrite Hr.
    + destruct (IH (S i) (acc ++ [mkResult name false]) w1)
        as (res & w' & Hrun & _ & Hshort & Hle).
      exists (mkResult name false :: res), w'. rewrite Hrun, <- app_assoc.
      split; [done|]. split; [done|]. cbn [length]. split; [|lia].
      intros Hlt. destruct Hshort as [Hf _]; [lia | done].
    + rewrite print_then. exists [mkResult name false]. eexists.
      split; [done|]. cbn [length]. split; [|split; [|lia]].
      * by intros _ [|k] r Hk Hr.
      * intros _. split; [done|]. by exists (mkResult name false).
Qed.

(** When every launch succeeds, every sample is attempted and passes. *)
Lemma main_loop_all_pass args total :
  (∀ n cmd fs, outcome_ok (tool n cmd fs).1 = true) →
  ∀ todo i acc w,
    ∃ w', main_loop tool strftime_now py_repr args total i todo acc w
          = (Ret (acc ++ (passed <$> todo)), w')
      ∧ w_runs w' = w_runs w ++ (sample_cmd args <$> todo).
Proof.
  intros Hok. induction todo as [|[[name read1] read2] rest IH]; intros i acc w.
  - exists w. by rewrite !app_nil_r.
  - cbn [main_loop]. rewrite print_then, bind_run, run_getorganelle_run.
    rewrite Hok. cbn [negb andb].
    match goal with |- context [main_loop _ _ _ _ _ _ _ _ ?w0] =>
      destruct (IH (S i) (acc ++ [mkResult name true]) w0) as (w' & -> & Hruns)
    end.
    exists w'. rewrite <- app_assoc. split; [done|].
    rewrite Hruns. cbn. by rewrite <- app_assoc.
Qed.

Lemma os_makedirs_present p w : present (w_fs (os_makedirs p w).2) p = true.
Proof.
  unfold os_makedirs, present. destruct (w_fs w !! p) eqn:E; cbn.
  - rewrite E. by apply bool_decide_eq_true_2.
  - rewrite lookup_insert_eq. by apply bool_decide_eq_true_2.
Qed.

(** [main] when [read_samples] exits, and when it returns no sample *)
Lemma main_read_exit args w code wr :
  read_samples csv_reader py_repr (samples args) (before_reading args w)
  = (SysExit code, wr) →
  main csv_reader tool strftime_now py_repr args w = (SysExit code, wr).
Proof.
  intros Hread. unfold main. rewrite bind_run.
  unfold before_reading, reading_line in Hread.
  destruct (os_makedirs_run (output_dir args) w) as (w0 & Hmk & _).
  rewrite Hmk in Hread |- *. cbn [snd] in Hread.
  by rewrite print_then, bind_run, Hread.
Qed.

Lemma main_no_samples args w wr :
  read_samples csv_reader py_repr (samples args) (before_reading args w)
  = (Ret [], wr) →
  main csv_reader tool strftime_now py_repr args w
  = (SysExit 1, put_out "Error: No valid samples found in the input file" wr).
Proof.
  intros Hread. unfold main. rewrite bind_run.
  unfold before_reading, reading_line in Hread.
  destruct (os_makedirs_run (output_dir args) w) as (w0 & Hmk & _).
  rewrite Hmk in Hread |- *. cbn [snd] in Hread.
  rewrite print_then, bind_run, Hread, bind_run.
  by rewrite bool_decide_eq_true_2.
Qed.

(** X8.  One call of [run_getorganelle] launches the tool exactly once,
    whether the launch succeeds or fails (no retry), reads the clock
    once, prints the banner before anything else, and leaves the file
    system as the tool left it. *)
Theorem run_getorganelle_one_launch name read1 read2 out args w :
  ∃ ok w' notice,
    run_getorganelle tool strftime_now py_repr name read1 read2 out args w
    = (Ret ok, w')
    ∧ w_runs w' =
      w_runs w ++ [getorganelle_cmd read1 read2
                     (os_path_join out (name +:+ "_mt")) args]
    ∧ w_clock w' = S (w_clock w)
    ∧ w_fs w' =
      (tool (length (w_runs w))
         (getorganelle_cmd read1 read2 (os_path_join out (name +:+ "_mt")) args)
         (w_fs w)).2
    ∧ w_out w' =
      w_out w
      ++ run_banner name (strftime_now (w_clock w))
           (getorganelle_cmd read1 read2 (os_path_join out (name +:+ "_mt")) args)
      ++ notice.
Proof.
  eexists _, _, _. split; [apply run_getorganelle_run|]. by repeat split.
Qed.

(** X9.  The directory given to the tool after [-o] lies under the output
    directory only for a sample name that does not start with [/]: for a
    name that does, it is the name followed by [_mt] and the output
    directory plays no part. *)
Theorem sample_output_path name read1 read2 out args w :
  ∃ ok w' cmd,
    run_getorganelle tool strftime_now py_repr name read1 read2 out args w
    = (Ret ok, w')
    ∧ w_runs w' = w_runs w ++ [cmd]
    ∧ cmd !! 5 = Some "-o"
    ∧ if startswith "/" name
      then cmd !! 6 = Some (name +:+ "_mt")
      else ∃ sep, (sep = EmptyString ∨ sep = "/")
             ∧ cmd !! 6 = Some (out +:+ sep +:+ name +:+ "_mt").
Proof.
  eexists _, _, _. split; [apply run_getorganelle_run|]. cbn [w_runs].
  split; [done|]. split; [done|]. cbn [getorganelle_cmd lookup list_lookup].
  unfold os_path_join. rewrite startswith_slash_mt.
  destruct (startswith "/" name); [done|].
  destruct (_ || _); [exists EmptyString | exists "/"]; auto.
Qed.

(** X10.  With continue-on-error set, the loop attempts every sample
    whatever the outcomes: there is one result per sample, in the order
    of the samples, and one launch per sample. *)
Theorem continue_on_error_runs_all args total i todo w :
  continue_on_error args = true →
  ∃ results w',
    main_loop tool strftime_now py_repr args total i todo [] w
    = (Ret results, w')
    ∧ sample_name <$> results = s_name <$> todo
    ∧ w_runs w' = w_runs w ++ (sample_cmd args <$> todo).
Proof.
  intros Hc.
  destruct (main_loop_run tool strftime_now py_repr args total todo i [] w)
    as (res & w' & Hrun & Hnames & Hruns & _ & _ & Hall).
  exists res, w'. split; [exact Hrun|].
  rewrite Hnames, Hruns, (Hall Hc). by rewrite take_ge.
Qed.

(** X11.  With continue-on-error unset, a failed result is the last one:
    the results hold at most one failure, and the count of failures the
    report shows is 0 or 1. *)
Theorem failure_is_last args total i todo w results w' :
  continue_on_error args = false →
  main_loop tool strftime_now py_repr args total i todo [] w
  = (Ret results, w') →
  (∀ k r, results !! k = Some r → success r = false → length results = S k)
  ∧ (n_failed results ≤ 1)%Z.
Proof.
  intros Hc Hrun.
  destruct (main_loop_shape args total todo i [] w)
    as (res & w1 & Hrun1 & Hlast & _).
  rewrite Hrun in Hrun1. injection Hrun1 as -> _. specialize (Hlast Hc).
  split; [exact Hlast|]. rewrite n_failed_length.
  pose proof (failures_at_most_one res Hlast). lia.
Qed.

(** X12.  When the tool exits with status 0 on every launch, every sample
    of the manifest is attempted and passes, and [main] exits with
    status 0, whether continue-on-error is set or not. *)
Theorem all_pass_exit_zero args w todo wr :
  (∀ n cmd fs, outcome_ok (tool n cmd fs).1 = true) →
  read_samples csv_reader py_repr (samples args) (before_reading args w)
  = (Ret todo, wr) →
  todo ≠ [] →
  ∃ w1 w2,
    main_loop tool strftime_now py_repr args (length todo) 1 todo []
      (put_outs (announce args todo) wr)
    = (Ret (passed <$> todo), w1)
    ∧ w_runs w1 = w_runs wr ++ (sample_cmd args <$> todo)
    ∧ main csv_reader tool strftime_now py_repr args w = (SysExit 0, w2).
Proof.
  intros Hok Hread Hne.
  destruct (main_loop_all_pass args (length todo) Hok todo 1 []
              (put_outs (announce args todo) wr)) as (w1 & Hloop & Hruns).
  cbn [app] in Hloop.
  destruct (main_report_run strftime_now args (passed <$> todo) w1)
    as (w2 & Hrep & _).
  exists w1, w2. split; [exact Hloop|]. split; [exact Hruns|].
  rewrite (main_run csv_reader tool strftime_now py_repr args w todo wr Hread Hne).
  rewrite bind_run, Hloop, Hrep.
  assert (n_failed (passed <$> todo) = 0%Z) as ->; [|done].
  apply n_failed_zero. by intros r (s & -> & _)%list_elem_of_fmap.
Qed.

(** Given the namespace, [main] exits with status 0 only when the
    manifest gave at least one sample, every sample it gave was
    attempted, and every one succeeded. *)
Lemma exit_zero_means_all_passed args w w' :
  main csv_reader tool strftime_now py_repr args w = (SysExit 0, w') →
  ∃ todo wr results w1,
    read_samples csv_reader py_repr (samples args) (before_reading args w)
    = (Ret todo, wr)
    ∧ todo ≠ []
    ∧ main_loop tool strftime_now py_repr args (length todo) 1 todo []
        (put_outs (announce args todo) wr)
      = (Ret results, w1)
    ∧ sample_name <$> results = s_name <$> todo
    ∧ ∀ r, r ∈ results → success r = true.
Proof.
  intros Hmain.
  destruct (read_samples_total csv_reader py_repr (samples args)
              (before_reading args w))
    as (r & wr & Hread & _ & _ & _ & [-> | (text & _ & ->)]).
  { rewrite (main_read_exit args w _ wr Hread) in Hmain. done. }
  set (todo := omap _ _) in Hread.
  destruct (decide (todo = [])) as [He|Hne].
  { rewrite He in Hread. rewrite (main_no_samples args w wr Hread) in Hmain.
    done. }
  rewrite (main_run csv_reader tool strftime_now py_repr args w todo wr Hread Hne),
    bind_run in Hmain.
  destruct (main_loop_run tool strftime_now py_repr args (length todo) todo 1 []
              (put_outs (announce args todo) wr))
    as (res & w1 & Hloop & Hnames & _).
  destruct (main_loop_shape args (length todo) todo 1 []
              (put_outs (announce args todo) wr))
    as (res' & w1' & Hloop' & _ & Hshort & Hle).
  rewrite Hloop in Hloop'. injection Hloop' as <- <-.
  cbn [app] in Hloop. rewrite Hloop in Hmain.
  destruct (main_report_run strftime_now args res w1) as (w2 & Hrep & _).
  rewrite Hrep in Hmain.
  assert (n_failed res = 0%Z) as Hzero.
  { destruct (Z.eqb_spec (n_failed res) 0); [done|]. by injection Hmain. }
  pose proof (proj1 (n_failed_zero res) Hzero) as Hall.
  exists todo, wr, res, w1. split; [exact Hread|]. split; [exact Hne|].
  split; [exact Hloop|]. split; [|exact Hall].
  destruct (decide (length res < length todo)) as [Hlt|Hge].
  - destruct (Hshort Hlt) as (_ & x & Hx & Hf).
    apply last_Some_elem_of in Hx. specialize (Hall x Hx). congruence.
  - rewrite Hnames. by rewrite take_ge by lia.
Qed.


(** X16.  After the report, [main] prints the three totals, and then, only
    when some result failed, the heading [Failed samples:] followed by the
    name of each failed result, once each, in the order of the results. *)
Theorem failed_samples_listed args results w :
  ∃ code w',
    main_report strftime_now args results w = (SysExit code, w')
    ∧ w_out w' =
      w_out w
      ++ [ nl +:+ str_mul "=" 60; "Batch Processing Complete"; str_mul "=" 60;
           nl +:+ "Summary report saved to: " +:+ summary_path (output_dir args);
           nl +:+ "Results:";
           "  Total: " +:+ str_Z (n_total results);
           "  Successful: " +:+ str_Z (n_successful results);
           "  Failed: " +:+ str_Z (n_failed results) ]
      ++ (if (0 <? n_failed results)%Z
          then (nl +:+ "Failed samples:")
               :: ((λ r, "  - " +:+ sample_name r)
                     <$> List.filter (λ r, negb (success r)) results)
          else []).
Proof.
  unfold main_report. rewrite !print_then, bind_run.
  rewrite generate_summary_run. rewrite !print_then, bind_run.
  destruct (0 <? n_failed results)%Z.
  - rewrite print_then, print_failed_lines. eexists _, _.
    split; [reflexivity|]. unfold put_outs, put_out, summary_path.
    cbn [w_out w_fs w_clock w_runs]. by rewrite <- !app_assoc.
  - eexists _, _. split; [reflexivity|]. unfold put_outs, put_out, summary_path.
    cbn [w_out w_fs w_clock w_runs mret M_ret]. by rewrite <- !app_assoc.
Qed.

(** [parse_arguments()], as in the script *)
Variable parse_arguments : list string → M Args.

(** X13.  [main], from its first statement, exits with status 0 only in
    two ways: the argument parser itself exits with status 0, as it does
    for [--help], and then nothing else is done; or the parser returns a
    namespace, the manifest gives at least one sample, every sample it
    gives is attempted, and every one succeeds. *)
Theorem main_argv_exit_zero argv w w' :
  main_argv csv_reader tool strftime_now py_repr parse_arguments argv w
  = (SysExit 0, w') →
  parse_arguments argv w = (SysExit 0, w')
  ∨ ∃ args w0 todo wr results w1,
      parse_arguments argv w = (Ret args, w0)
      ∧ read_samples csv_reader py_repr (samples args) (before_reading args w0)
        = (Ret todo, wr)
      ∧ todo ≠ []
      ∧ main_loop tool strftime_now py_repr args (length todo) 1 todo []
          (put_outs (announce args todo) wr)
        = (Ret results, w1)
      ∧ sample_name <$> results = s_name <$> todo
      ∧ ∀ r, r ∈ results → success r = true.
Proof.
  unfold main_argv. rewrite bind_run.
  destruct (parse_arguments argv w) as [[args|e|code] w0] eqn:Hp.
  - intros Hmain. right.
    destruct (exit_zero_means_all_passed args w0 w' Hmain)
      as (todo & wr & results & w1 & H).
    by exists args, w0, todo, wr, results, w1.
  - done.
  - intros [= -> ->]. by left.
Qed.

End BatchMore.

(** ** The further theorems at work on concrete runs *)

Lemma read_samples_returns_valid_rows_witness :
  w_fs Demo.start3 !! "short.txt" = Some (File Demo.manifest_short)
  ∧ ∃ recs w',
      Demo.read_samples "short.txt" Demo.start3 = (Ret recs, w')
      ∧ ∀ s, s ∈ recs ↔
          ∃ a b c, [a; b; c] ∈ Demo.csv_reader Demo.manifest_short
            ∧ s = (strip a, strip b, strip c)
            ∧ present (w_fs Demo.start3) (strip b) = true
            ∧ present (w_fs Demo.start3) (strip c) = true.
Proof.
  assert (w_fs Demo.start3 !! "short.txt" = Some (File Demo.manifest_short))
    as H1 by (vm_compute; reflexivity).
  exact (conj H1
    (read_samples_returns_valid_rows Demo.csv_reader Demo.py_repr
       "short.txt" Demo.manifest_short Demo.start3 H1)).
Defined.

Lemma read_samples_keeps_order_witness :
  w_fs Demo.start3 !! "short.txt" = Some (File Demo.manifest_short)
  ∧ ∃ recs w',
      Demo.read_samples "short.txt" Demo.start3 = (Ret recs, w')
      ∧ sublist recs (omap row_fields (Demo.csv_reader Demo.manifest_short)).
Proof.
  assert (w_fs Demo.start3 !! "short.txt" = Some (File Demo.manifest_short))
    as H1 by (vm_compute; reflexivity).
  exact (conj H1
    (read_samples_keeps_order Demo.csv_reader Demo.py_repr
       "short.txt" Demo.manifest_short Demo.start3 H1)).
Defined.

Lemma read_samples_accounts_for_rows_witness :
  w_fs (Demo.start Demo.manifest_gaps) !! "samples.txt"
  = Some (File Demo.manifest_gaps)
  ∧ ∃ recs w' (verdicts : list (Sample + string)),
      Demo.read_samples "samples.txt" (Demo.start Demo.manifest_gaps)
      = (Ret recs, w')
      ∧ length verdicts = length (Demo.csv_reader Demo.manifest_gaps)
      ∧ recs = omap verdict_record verdicts
      ∧ w_out w'
        = w_out (Demo.start Demo.manifest_gaps) ++ omap verdict_warning verdicts
      ∧ ∀ i row, Demo.csv_reader Demo.manifest_gaps !! i = Some row →
          ∃ v, verdicts !! i = Some v
            ∧ match v with
              | inl s =>
                  accept (w_fs (Demo.start Demo.manifest_gaps)) row = Some s
              | inr msg =>
                  accept (w_fs (Demo.start Demo.manifest_gaps)) row = None
                  ∧ row_warning (w_fs (Demo.start Demo.manifest_gaps)) (S i) row
                    = [msg]
              end.
Proof.
  assert (w_fs (Demo.start Demo.manifest_gaps) !! "samples.txt"
          = Some (File Demo.manifest_gaps)) as H1 by (vm_compute; reflexivity).
  exact (conj H1
    (read_samples_accounts_for_rows Demo.csv_reader Demo.py_repr
       "samples.txt" Demo.manifest_gaps (Demo.start Demo.manifest_gaps) H1)).
Defined.


Lemma read_samples_on_directory_witness :
  w_fs Demo.start_dir !! "samples.txt" = Some Dir
  ∧ Demo.read_samples "samples.txt" Demo.start_dir
    = (SysExit 1,
       put_out ("Error reading sample file: [Errno 21] Is a directory: "
                +:+ Demo.py_repr "samples.txt") Demo.start_dir).
Proof.
  assert (w_fs Demo.start_dir !! "samples.txt" = Some Dir) as H1
    by (vm_compute; reflexivity).
  exact (conj H1
    (read_samples_on_directory Demo.csv_reader Demo.py_repr
       "samples.txt" Demo.start_dir H1)).
Defined.

Lemma read_samples_fields_trimmed_witness :
  Demo.csv_reader Demo.manifest_ok
  = [["s1"; "a_1.fq"; "a_2.fq"]; [" s2 "; " c_1.fq"; "c_2.fq "]]
  ∧ Demo.read_samples "samples.txt" (Demo.start Demo.manifest_ok)
    = (Ret [("s1", "a_1.fq", "a_2.fq"); ("s2", "c_1.fq", "c_2.fq")],
       Demo.start Demo.manifest_ok)
  ∧ ∀ s, s ∈ [("s1", "a_1.fq", "a_2.fq"); ("s2", "c_1.fq", "c_2.fq")] →
      bare (s_name s) ∧ bare (s_read1 s) ∧ bare (s_read2 s)
      ∧ strip (s_name s) = s_name s
      ∧ strip (s_read1 s) = s_read1 s
      ∧ strip (s_read2 s) = s_read2 s
      ∧ present (w_fs (Demo.start Demo.manifest_ok)) (s_read1 s) = true
      ∧ present (w_fs (Demo.start Demo.manifest_ok)) (s_read2 s) = true
      ∧ ∀ args,
          sample_cmd args s !! 1 = Some "-1"
          ∧ sample_cmd args s !! 2 = Some (s_read1 s)
          ∧ sample_cmd args s !! 3 = Some "-2"
          ∧ sample_cmd args s !! 4 = Some (s_read2 s).
Proof.
  assert (Demo.read_samples "samples.txt" (Demo.start Demo.manifest_ok)
          = (Ret [("s1", "a_1.fq", "a_2.fq"); ("s2", "c_1.fq", "c_2.fq")],
             Demo.start Demo.manifest_ok)) as H1 by (vm_compute; reflexivity).
  split; [vm_compute; reflexivity|].
  exact (conj H1
    (read_samples_fields_trimmed Demo.csv_reader Demo.py_repr
       "samples.txt" (Demo.start Demo.manifest_ok) _ _ H1)).
Defined.

Lemma continue_on_error_runs_all_witness :
  continue_on_error (Demo.args "samples.txt" true) = true
  ∧ ∃ results w',
      Demo.main_loop (Demo.args "samples.txt" true) 3 1
        [("s1", "a_1.fq", "a_2.fq"); ("s2", "bad_1.fq", "bad_2.fq");
         ("s3", "c_1.fq", "c_2.fq")] [] (Demo.start Demo.manifest_fail)
      = (Ret results, w')
      ∧ sample_name <$> results = ["s1"; "s2"; "s3"]
      ∧ w_runs w' =
        w_runs (Demo.start Demo.manifest_fail)
        ++ (sample_cmd (Demo.args "samples.txt" true)
              <$> [("s1", "a_1.fq", "a_2.fq"); ("s2", "bad_1.fq", "bad_2.fq");
                   ("s3", "c_1.fq", "c_2.fq")]).
Proof.
  assert (continue_on_error (Demo.args "samples.txt" true) = true) as H1
    by reflexivity.
  exact (conj H1
    (continue_on_error_runs_all Demo.tool Demo.strftime_now Demo.py_repr
       (Demo.args "samples.txt" true) 3 1
       [("s1", "a_1.fq", "a_2.fq"); ("s2", "bad_1.fq", "bad_2.fq");
        ("s3", "c_1.fq", "c_2.fq")] (Demo.start Demo.manifest_fail) H1)).
Defined.

Lemma failure_is_last_witness :
  continue_on_error (Demo.args "samples.txt" false) = false
  ∧ (Demo.main_loop (Demo.args "samples.txt" false) 3 1
       [("s1", "a_1.fq", "a_2.fq"); ("s2", "bad_1.fq", "bad_2.fq");
        ("s3", "c_1.fq", "c_2.fq")] [] (Demo.start Demo.manifest_fail)).1
    = Ret [mkResult "s1" true; mkResult "s2" false]
  ∧ (∀ k r, [mkResult "s1" true; mkResult "s2" false] !! k = Some r →
       success r = false →
       length [mkResult "s1" true; mkResult "s2" false] = S k)
  ∧ (n_failed [mkResult "s1" true; mkResult "s2" false] ≤ 1)%Z.
Proof.
  assert (continue_on_error (Demo.args "samples.txt" false) = false) as H1
    by reflexivity.
  assert (main_loop Demo.tool Demo.strftime_now Demo.py_repr
            (Demo.args "samples.txt" false) 3 1
            [("s1", "a_1.fq", "a_2.fq"); ("s2", "bad_1.fq", "bad_2.fq");
             ("s3", "c_1.fq", "c_2.fq")] [] (Demo.start Demo.manifest_fail)
          = (Ret [mkResult "s1" true; mkResult "s2" false],
             (Demo.main_loop (Demo.args "samples.txt" false) 3 1
                [("s1", "a_1.fq", "a_2.fq"); ("s2", "bad_1.fq", "bad_2.fq");
                 ("s3", "c_1.fq", "c_2.fq")] []
                (Demo.start Demo.manifest_fail)).2)) as H2
    by (vm_compute; reflexivity).
  split; [exact H1|]. split; [vm_compute; reflexivity|].
  exact (failure_is_last Demo.tool Demo.strftime_now Demo.py_repr
           (Demo.args "samples.txt" false) 3 1 _ _ _ _ H1 H2).
Defined.

Lemma all_pass_exit_zero_witness :
  (∀ n cmd fs, outcome_ok (Demo.tool_ok n cmd fs).1 = true)
  ∧ [("s1", "a_1.fq", "a_2.fq"); ("s2", "bad_1.fq", "bad_2.fq");
     ("s3", "c_1.fq", "c_2.fq")] ≠ ([] : list Sample)
  ∧ ∃ w2,
      main Demo.csv_reader Demo.tool_ok Demo.strftime_now Demo.py_repr
        (Demo.args "samples.txt" false) (Demo.start Demo.manifest_fail)
      = (SysExit 0, w2).
Proof.
  assert (∀ n cmd fs, outcome_ok (Demo.tool_ok n cmd fs).1 = true) as H1
    by (intros n cmd fs; reflexivity).
  assert (read_samples Demo.csv_reader Demo.py_repr
            (samples (Demo.args "samples.txt" false))
            (before_reading (Demo.args "samples.txt" false)
               (Demo.start Demo.manifest_fail))
          = (Ret [("s1", "a_1.fq", "a_2.fq"); ("s2", "bad_1.fq", "bad_2.fq");
                  ("s3", "c_1.fq", "c_2.fq")],
             before_reading (Demo.args "samples.txt" false)
               (Demo.start Demo.manifest_fail))) as H2
    by (vm_compute; reflexivity).
  assert ([("s1", "a_1.fq", "a_2.fq"); ("s2", "bad_1.fq", "bad_2.fq");
           ("s3", "c_1.fq", "c_2.fq")] ≠ ([] : list Sample)) as H3
    by discriminate.
  split; [exact H1|]. split; [exact H3|].
  destruct (all_pass_exit_zero Demo.csv_reader Demo.tool_ok Demo.strftime_now
              Demo.py_repr _ _ _ _ H1 H2 H3) as (w1 & w2 & _ & _ & Hmain).
  exists w2. exact Hmain.
Defined.

Lemma main_argv_exit_zero_witness :
  Demo.main_argv ["--samples"; "samples.txt"] (Demo.start Demo.manifest_ok)
  = (SysExit 0,
     (Demo.main_argv ["--samples"; "samples.txt"]
        (Demo.start Demo.manifest_ok)).2)
  ∧ Demo.parse_arguments ["--samples"; "samples.txt"]
      (Demo.start Demo.manifest_ok)
    = (Ret (Demo.args "samples.txt" false), Demo.start Demo.manifest_ok)
  ∧ ∃ todo wr results w1,
      Demo.read_samples "samples.txt"
        (before_reading (Demo.args "samples.txt" false)
           (Demo.start Demo.manifest_ok))
      = (Ret todo, wr)
      ∧ todo ≠ []
      ∧ Demo.main_loop (Demo.args "samples.txt" false) (length todo) 1 todo []
          (put_outs (announce (Demo.args "samples.txt" false) todo) wr)
        = (Ret results, w1)
      ∧ sample_name <$> results = s_name <$> todo
      ∧ ∀ r, r ∈ results → success r = true.
Proof.
  assert (main_argv Demo.csv_reader Demo.tool Demo.strftime_now Demo.py_repr
            Demo.parse_arguments ["--samples"; "samples.txt"]
            (Demo.start Demo.manifest_ok)
          = (SysExit 0,
             (Demo.main_argv ["--samples"; "samples.txt"]
                (Demo.start Demo.manifest_ok)).2)) as H1
    by (vm_compute; reflexivity).
  split; [exact H1|]. split; [reflexivity|].
  destruct (main_argv_exit_zero Demo.csv_reader Demo.tool Demo.strftime_now
              Demo.py_repr Demo.parse_arguments _ _ _ H1)
    as [Hhelp | (args & w0 & todo & wr & results & w1 & Hp & H)].
  - discriminate Hhelp.
  - injection Hp as <- <-. by exists todo, wr, results, w1.
Defined.

